(** * cdk-local-testing: the single-table data access service, the item
      controllers and the local Express dispatcher, embedded in Rocq.

    Sources embedded here (paths under [src/]):
    - class [DynamoDbService], [services/dynamodb.service.ts]
      (second part of [lib/stacks/lambda/request-lambda.cdk-stack.ts]);
    - [buildResponseBody], [lib/stacks/lambda/helpers/lambda-response.helper.ts];
    - [IRequest], [lib/stacks/lambda/interfaces/IRequest.ts];
    - [ItemsGetController], [lib/stacks/lambda/code/items/get.lambda-code.ts],
      and [ItemsUpdateController] (second part of
      [lib/stacks/lambda/code/items/create.lambda-code.ts]);
    - [ItemsCreateController], [ItemsDeleteController] and
      [ItemsListController], [lib/stacks/lambda/code/items/*.lambda-code.ts];
    - the decorators, [testing/decorators.ts] (end of [unnamed/part_002]);
    - the dispatcher, [testing/server.ts].

    JavaScript objects that the code mutates through a reference live in an
    explicit heap; the DynamoDB table is a finite map from the composite key
    [(PK, SK)] to the stored attributes.  Clock readings and fresh uuids are
    inputs of the operations that consume them.  The texts of
    [JSON.stringify] and [JSON.parse] are parameters of the code that calls
    them.  The store is one that answers: what the document client and
    Express refuse by themselves (a number that is no safe integer, a status
    code outside 100..999) is part of the model, an unreachable or
    throttling store is not. *)

From stdpp Require Import gmap strings list fin_maps pretty.

Set Warnings "-register-all".
Set Default Proof Using "Type".

Local Open Scope string_scope.
Local Open Scope Z_scope.

(* ================================================================== *)
(** ** JavaScript values *)
(* ================================================================== *)

(** Plain data: what [JSON.parse] yields and what the document client can
    store.  Numbers are the integers (non-integral numbers play no part in
    the code under study). *)
Inductive Json : Type :=
| JNull
| JBool (b : bool)
| JNum (n : Z)
| JStr (s : string)
| JArr (xs : list Json)
| JObj (props : gmap string Json).

(** The attributes of one object. *)
Abbreviation Obj := (gmap string Json).

(** A value as it may be thrown, returned or read off a property:
    [undefined], plain data, or an [Error] instance with its message. *)
Inductive JsVal : Type :=
| VUndefined
| VData (j : Json)
| VError (message : string).

Definition VStr (s : string) : JsVal := VData (JStr s).

(** [Boolean(v)]. *)
Definition truthy (v : JsVal) : bool :=
  match v with
  | VUndefined => false
  | VData JNull => false
  | VData (JBool b) => b
  | VData (JNum n) => negb (n =? 0)
  | VData (JStr s) => negb (bool_decide (s = EmptyString))
  | VData (JArr _) | VData (JObj _) => true
  | VError _ => true
  end.

(** [typeof v === 'string'] and [typeof v === 'object']. *)
Definition typeof_string (v : JsVal) : bool :=
  match v with VData (JStr _) => true | _ => false end.

Definition typeof_object (v : JsVal) : bool :=
  match v with
  | VData JNull | VData (JArr _) | VData (JObj _) | VError _ => true
  | _ => false
  end.

(** [String.prototype.join]. *)
Fixpoint join (sep : string) (parts : list string) : string :=
  match parts with
  | [] => EmptyString
  | [p] => p
  | p :: rest => p +:+ sep +:+ join sep rest
  end.

(** The string a template literal [`${v}`] substitutes for [v].  Numbers
    are printed in decimal, as JavaScript prints an integer of magnitude
    below 10^21. *)
Fixpoint json_to_string (j : Json) : string :=
  match j with
  | JNull => "null"
  | JBool true => "true"
  | JBool false => "false"
  | JNum n => pretty n
  | JStr s => s
  | JArr xs =>
      join ","
        ((fix elems (l : list Json) : list string :=
            match l with
            | [] => []
            | JNull :: l' => EmptyString :: elems l'
            | x :: l' => json_to_string x :: elems l'
            end) xs)
  | JObj _ => "[object Object]"
  end.

Definition ToString (v : JsVal) : string :=
  match v with
  | VUndefined => "undefined"
  | VData j => json_to_string j
  | VError m => "Error: " +:+ m
  end.

(** The message V8 gives a [TypeError] raised by reading property [k] of
    [undefined] or [null]. *)
Definition cannot_read (what k : string) : string :=
  "Cannot read properties of " +:+ what +:+ " (reading '" +:+ k +:+ "')".

(** Reading [v.k] for a property [k] that no prototype supplies (such as
    [message] on a string, or [id] on parsed data): [Some] result, or the
    [TypeError] thrown for [undefined] and [null]. *)
Definition get_property (v : JsVal) (k : string) : JsVal + JsVal :=
  match v with
  | VUndefined => inr (VError (cannot_read "undefined" k))
  | VData JNull => inr (VError (cannot_read "null" k))
  | VData (JObj props) =>
      inl (match props !! k with Some j => VData j | None => VUndefined end)
  | VData _ => inl VUndefined
  | VError m => inl (if bool_decide (k = "message") then VStr m else VUndefined)
  end.

(** [typeof j]. *)
Definition typeof_name (j : Json) : string :=
  match j with
  | JNull | JArr _ | JObj _ => "object"
  | JBool _ => "boolean"
  | JNum _ => "number"
  | JStr _ => "string"
  end.

(** The message of the [TypeError] that the strict-mode assignment
    [j.prop = ...] raises on [null] and on a primitive. *)
Definition cannot_assign (prop : string) (j : Json) : string :=
  match j with
  | JNull => "Cannot set properties of null (setting '" +:+ prop +:+ "')"
  | _ => "Cannot create property '" +:+ prop +:+ "' on " +:+ typeof_name j
           +:+ " '" +:+ json_to_string j +:+ "'"
  end.

(** [Number.MAX_SAFE_INTEGER]. *)
Definition MAX_SAFE_INTEGER : Z := 9007199254740991.

(* ================================================================== *)
(** ** The world: object heap and table; the [async] monad *)
(* ================================================================== *)

Abbreviation loc := nat (only parsing).

Record World : Type := mkWorld {
  heap : gmap loc Obj;                    (* objects reachable by reference *)
  table : gmap (string * string) Obj      (* items by (PK, SK) *)
}.

Definition with_heap (w : World) (h : gmap loc Obj) : World :=
  {| heap := h; table := table w |}.
Definition with_table (w : World) (t : gmap (string * string) Obj) : World :=
  {| heap := heap w; table := t |}.

(** How an awaited computation ends. *)
Inductive Outcome (A : Type) : Type :=
| Returned (a : A)
| Thrown (e : JsVal).
Arguments Returned {A} a.
Arguments Thrown {A} e.

Definition Async (A : Type) : Type := World -> Outcome A * World.

Definition throw {A} (e : JsVal) : Async A := fun w => (Thrown e, w).

#[export] Instance async_ret : MRet Async := fun A a w => (Returned a, w).
#[export] Instance async_bind : MBind Async := fun A B k m w =>
  match m w with
  | (Returned a, w') => k a w'
  | (Thrown e, w') => (Thrown e, w')
  end.

(** [try { m } catch (e) { handler e }]. *)
Definition try_catch {A} (m : Async A) (handler : JsVal -> Async A) : Async A :=
  fun w =>
    match m w with
    | (Returned a, w') => (Returned a, w')
    | (Thrown e, w') => handler e w'
    end.

(** The attributes of the object at [r]. *)
Definition obj_at (w : World) (r : loc) : Obj := default ∅ (heap w !! r).

(** [r[k]]. *)
Definition readProp (r : loc) (k : string) : Async JsVal :=
  fun w =>
    (Returned (match obj_at w r !! k with
               | Some j => VData j
               | None => VUndefined
               end), w).

(** [r[k] = v], in place.  The name [__proto__] is not a property of the
    object: assigning to it goes through the setter of [Object.prototype]
    and leaves the object's own properties as they are.  (The prototype
    link that the setter rewires is not part of an object here; the
    properties below are stated for objects without such a key.) *)
Definition writeProp (r : loc) (k : string) (v : Json) : Async unit :=
  fun w =>
    if String.eqb k "__proto__" then (Returned tt, w)
    else (Returned tt, with_heap w (<[r := <[k := v]> (obj_at w r)]> (heap w))).

(** A new object with attributes [o]. *)
Definition alloc (o : Obj) : Async loc :=
  fun w =>
    let r := fresh (dom (heap w)) in
    (Returned r, with_heap w (<[r := o]> (heap w))).

(** [for (const prop in r) body(prop, r[prop])]. *)
Fixpoint for_each {A} (body : A -> Async unit) (l : list A) : Async unit :=
  match l with
  | [] => mret tt
  | a :: l' => body a ;; for_each body l'
  end.

Definition for_in (r : loc) (body : string -> Json -> Async unit) : Async unit :=
  fun w => for_each (fun kv => body kv.1 kv.2) (map_to_list (obj_at w r)) w.

(* ================================================================== *)
(** ** services/dynamodb.service.ts *)
(* ================================================================== *)

Module DynamoDbService.

(** [type RESOURCE_TYPE = 'ITEM'] and
    [type RESOURCE_FILTER = RESOURCE_TYPE | `${RESOURCE_TYPE}#${string}`]. *)
Inductive RESOURCE_TYPE : Type := ITEM.

Inductive RESOURCE_FILTER : Type :=
| Resource (t : RESOURCE_TYPE)
| ResourceOf (t : RESOURCE_TYPE) (rest : string).

Definition type_name (t : RESOURCE_TYPE) : string :=
  match t with ITEM => "ITEM" end.

Definition filter_string (f : RESOURCE_FILTER) : string :=
  match f with
  | Resource t => type_name t
  | ResourceOf t rest => type_name t +:+ "#" +:+ rest
  end.

(** [`${pk}#${id}`]. *)
Definition partition_key (pk : RESOURCE_FILTER) (id : JsVal) : string :=
  filter_string pk +:+ "#" +:+ ToString id.

(** *** The document client, as the service drives it *)

(** [GetCommand]: the item stored under the exact key, if any. *)
Definition GetCommand (PK SK : string) : Async (option Obj) :=
  fun w => (Returned (table w !! (PK, SK)), w).

(** Before it sends an item the document client marshals it, and it
    refuses a number that is no safe integer, at any depth: [unsafe_number]
    is such a number of [j], if there is one. *)
Fixpoint unsafe_number (j : Json) : option Z :=
  match j with
  | JNum n =>
      if (- MAX_SAFE_INTEGER <=? n) && (n <=? MAX_SAFE_INTEGER) then None
      else Some n
  | JArr xs =>
      (fix first (l : Datatypes.list Json) : option Z :=
         match l with
         | [] => None
         | x :: l' =>
             match unsafe_number x with
             | Some n => Some n
             | None => first l'
             end
         end) xs
  | JObj props =>
      map_fold (fun _ v found =>
                  match found with
                  | Some n => Some n
                  | None => unsafe_number v
                  end) None props
  | _ => None
  end.

(** The message of the [Error] the marshaller throws for such a number. *)
Definition not_a_safe_integer (n : Z) : string :=
  if n <? 0
  then "Number " +:+ pretty n
         +:+ " is lesser than Number.MIN_SAFE_INTEGER. Use BigInt."
  else "Number " +:+ pretty n
         +:+ " is greater than Number.MAX_SAFE_INTEGER. Use BigInt.".

(** [PutCommand]: when the item marshals, its attributes are copied into
    the table under the item's own [PK] and [SK], which the table schema
    wants to be strings; when it does not, nothing is sent. *)
Definition PutCommand (Item : loc) : Async unit :=
  fun w =>
    let item := obj_at w Item in
    match unsafe_number (JObj item) with
    | Some n => (Thrown (VError (not_a_safe_integer n)), w)
    | None =>
        match item !! "PK", item !! "SK" with
        | Some (JStr p), Some (JStr s) =>
            (Returned tt, with_table w (<[(p, s) := item]> (table w)))
        | _, _ =>
            (Thrown (VError "One or more parameter values were invalid"), w)
        end
    end.

(** [DeleteCommand]: removes the key; silent when it is not there. *)
Definition DeleteCommand (PK SK : string) : Async unit :=
  fun w => (Returned tt, with_table w (delete (PK, SK) (table w))).

(** [QueryCommand] on [SK-PK-index]: the condition values and where to
    resume; the store answers with one page. *)
Record QueryInput : Type := mkQuery {
  query_sk : string;
  query_pk : string;
  ExclusiveStartKey : option Obj
}.

Record QueryOutput : Type := mkPage {
  Items : option (list Obj);
  LastEvaluatedKey : option Obj
}.

(** *** [removeKeys]:
    [items.map(item => { const { SK, PK, ...otherFields } = item; return otherFields; })] *)
Definition removeKeys (items : list Obj) : list Obj :=
  map (fun item => delete "PK" (delete "SK" item)) items.

(** *** [putItem] *)
Definition putItem (now : string) (resource : loc) : Async unit :=
  writeProp resource "lastModifiedOn" (JStr now) ;;
  PutCommand resource.

(** *** [get] *)
Definition get (id : JsVal) (pk sk : RESOURCE_FILTER) : Async (option Obj) :=
  response ← GetCommand (partition_key pk id) (filter_string sk);
  match response with
  | None => mret None
  | Some Item => mret (removeKeys [Item] !! 0%nat)
  end.

(** *** [create]: [v4] is the uuid drawn, [now] the clock read by [create]
    and [now'] the clock read by [putItem]. *)
Definition create (v4 now now' : string) (resource : loc)
    (pk sk : RESOURCE_FILTER) : Async JsVal :=
  writeProp resource "id" (JStr v4) ;;
  writeProp resource "createdOn" (JStr now) ;;
  id ← readProp resource "id";
  writeProp resource "PK" (JStr (partition_key pk id)) ;;
  writeProp resource "SK" (JStr (filter_string sk)) ;;
  putItem now' resource ;;
  readProp resource "id".

(** *** [createLink] *)
Definition createLink (now now' : string) (resource : loc)
    (pk sk : RESOURCE_FILTER) : Async unit :=
  writeProp resource "createdOn" (JStr now) ;;
  writeProp resource "PK" (JStr (filter_string pk)) ;;
  writeProp resource "SK" (JStr (filter_string sk)) ;;
  putItem now' resource.

(** *** [update] *)
Definition immutable (prop : string) : bool :=
  bool_decide (prop ∈ ["createdOn"; "id"]).

Definition update (now : string) (resource : loc)
    (pk sk : RESOURCE_FILTER) : Async unit :=
  id ← readProp resource "id";
  writeProp resource "PK" (JStr (partition_key pk id)) ;;
  writeProp resource "SK" (JStr (filter_string sk)) ;;
  id ← readProp resource "id";
  existing ← get id pk sk;
  match existing with
  | None => throw (VStr "404")
  | Some found =>
      existingItem ← alloc found;
      for_in resource (fun prop value =>
        if immutable prop then mret tt
        else writeProp existingItem prop value) ;;
      putItem now existingItem
  end.

(** *** [deleteWithFullKey] and [delete] *)
Definition deleteWithFullKey (pk sk : RESOURCE_FILTER) : Async unit :=
  DeleteCommand (filter_string pk) (filter_string sk).

Definition delete (id : JsVal) (pk sk : RESOURCE_FILTER) : Async unit :=
  DeleteCommand (partition_key pk id) (filter_string sk).

(** *** [list]

    The store decides where a page ends; the service sees only what each
    [send] answers.  [send_query] is that answer as a function of the
    command's input.  The [while] loop is unrolled [fuel] times: [None]
    means the loop was still asking for pages when the fuel ran out. *)
Section Pagination.
Variable send_query : QueryInput -> Outcome QueryOutput.

Definition nonempty {A} (l : list A) : bool :=
  match l with [] => false | _ => true end.

Fixpoint load_pages (fuel : nat) (sk pk : string) (results : QueryOutput)
    (items : list Obj) : option (Outcome (list Obj)) :=
  match LastEvaluatedKey results with
  | None => Some (Returned items)
  | Some key =>
      match fuel with
      | O => None
      | S fuel' =>
          match send_query (mkQuery sk pk (Some key)) with
          | Thrown e => Some (Thrown e)
          | Returned results' =>
              load_pages fuel' sk pk results'
                (match Items results' with
                 | Some more =>
                     if nonempty more then (items ++ more)%list else items
                 | None => items
                 end)
          end
      end
  end.

Definition list (fuel : nat) (sk pk : RESOURCE_FILTER)
    : option (Outcome (Datatypes.list Obj)) :=
  match send_query (mkQuery (filter_string sk) (filter_string pk) None) with
  | Thrown e => Some (Thrown e)
  | Returned results =>
      match Items results with
      | None => Some (Thrown (VError "undefined is not iterable"))
      | Some first =>
          match load_pages fuel (filter_string sk) (filter_string pk)
                  results first with
          | Some (Returned items) => Some (Returned (removeKeys items))
          | stopped => stopped
          end
      end
  end.
End Pagination.

End DynamoDbService.

(* ================================================================== *)
(** ** helpers/lambda-response.helper.ts *)
(* ================================================================== *)

(** [type HeadersModel = Record<string, string> | 'ALLOW' | undefined]. *)
Inductive HeadersModel : Type :=
| NoHeaders
| ALLOW
| Headers (h : gmap string string).

(** What a handler returns to its invoker. *)
Record LambdaResponse : Type := mkResponse {
  statusCode : Z;
  headers : gmap string string;
  body : option string
}.

Definition allow_all : gmap string string :=
  {[ "Access-Control-Allow-Headers" := "*";
     "Access-Control-Allow-Origin" := "*";
     "Access-Control-Allow-Methods" := "*" ]}.

Section Json_text.
(** The text [JSON.stringify] writes for plain data, and what [JSON.parse]
    makes of a text: the value, or the message of its [SyntaxError]. *)
Variable JSON_text : Json -> string.
Variable JSON_parse : string -> Json + string.

(** [JSON.stringify(v)]: [undefined] has no text, an [Error] has no
    enumerable property. *)
Definition JSON_stringify (v : JsVal) : option string :=
  match v with
  | VUndefined => None
  | VData j => Some (JSON_text j)
  | VError _ => Some "{}"
  end.

Definition buildResponseBody (status : Z) (body : JsVal)
    (headers : HeadersModel) : LambdaResponse :=
  let headersToUse :=
    match headers with
    | ALLOW => allow_all
    | Headers h => h
    | NoHeaders => ∅
    end in
  {| statusCode := status;
     headers := headersToUse;
     body := match body with
             | VData (JStr s) => Some s
             | _ => JSON_stringify body
             end |}.

(* ================================================================ *)
(** ** interfaces/IRequest.ts and the item controllers *)
(* ================================================================ *)

(** The request a controller operation receives.  [pathParameters] is the
    object Express keeps in [req.params]; [request_body] is [request.body]. *)
Record IRequest : Type := mkRequest {
  pathParameters : gmap string string;
  request_body : JsVal
}.

(** [request.pathParameters.id]. *)
Definition pathParameters_id (request : IRequest) : JsVal :=
  match pathParameters request !! "id" with
  | Some s => VStr s
  | None => VUndefined
  end.

(** The [catch (error: any)] block every controller shares:
    [return buildResponseBody(500, error.message, 'ALLOW')]. *)
Definition on_error (error : JsVal) : Async LambdaResponse :=
  match get_property error "message" with
  | inl message => mret (buildResponseBody 500 message ALLOW)
  | inr type_error => throw type_error
  end.

(** [ItemsGetController.handler]. *)
Definition ItemsGetController_handler (request : IRequest)
    : Async LambdaResponse :=
  try_catch
    (item ← DynamoDbService.get (pathParameters_id request)
              (DynamoDbService.Resource DynamoDbService.ITEM)
              (DynamoDbService.Resource DynamoDbService.ITEM);
     mret (buildResponseBody 200
             (match item with
              | Some o => VData (JObj o)
              | None => VUndefined
              end) ALLOW))
    on_error.

(** The enumerable own properties of parsed data that can take a property
    assignment: those of an object, or the indices of an array. *)
Definition own_properties (j : Json) : option Obj :=
  match j with
  | JObj props => Some props
  | JArr xs => Some (list_to_map (imap (fun i x => (pretty i, x)) xs))
  | _ => None
  end.

(** The parsed body as the object [update] works on.  The first statement
    of [update], [resource.PK = `${pk}#${resource.id}`], throws a
    [TypeError] on [null], where [resource.id] cannot be read, and, in
    strict mode, on a primitive, which takes no property. *)
Definition as_resource (j : Json) : Async loc :=
  match own_properties j with
  | Some props => alloc props
  | None =>
      match j with
      | JNull => throw (VError (cannot_read "null" "id"))
      | _ => throw (VError (cannot_assign "PK" j))
      end
  end.

(** [ItemsUpdateController.handler]; [now] is the clock read by
    [putItem]. *)
Definition ItemsUpdateController_handler (now : string) (request : IRequest)
    : Async LambdaResponse :=
  try_catch
    (match JSON_parse (ToString (request_body request)) with
     | inr syntax_error => throw (VError syntax_error)
     | inl parsed =>
         resource ← as_resource parsed;
         DynamoDbService.update now resource
           (DynamoDbService.Resource DynamoDbService.ITEM)
           (DynamoDbService.Resource DynamoDbService.ITEM) ;;
         mret (buildResponseBody 204 VUndefined ALLOW)
     end)
    on_error.

(* ================================================================ *)
(** ** testing/server.ts: the callback installed for each route *)
(* ================================================================ *)

(** The handler result as the JavaScript object the dispatcher inspects. *)
Definition response_value (r : LambdaResponse) : JsVal :=
  let props : Obj :=
    {[ "statusCode" := JNum (statusCode r);
       "headers" := JObj (JStr <$> headers r) ]} in
  VData (JObj (match body r with
               | Some s => <["body" := JStr s]> props
               | None => props
               end)).

(** What Express hands to the callback: the body as [express.json()] left
    it and the parameters matched in the path. *)
Record ExpressRequest : Type := mkExpressRequest {
  req_body : JsVal;
  req_params : gmap string string
}.

(** [res.status(status).json(sent)]. *)
Record ExpressResponse : Type := mkExpressResponse {
  status : JsVal;
  sent : Json
}.

(** How one run of the callback ends: a response was written, or a value
    escaped the callback (its promise is rejected and nothing was
    written). *)
Inductive Dispatched : Type :=
| Responded (res : ExpressResponse)
| Escaped (e : JsVal).

(** [a || b]. *)
Definition or_else (a b : JsVal) : JsVal := if truthy a then a else b.

(** What [res.json(v)] puts on the wire for a [v] that is not [undefined]. *)
Definition json_sent (v : JsVal) : Json :=
  match v with
  | VData j => j
  | VUndefined | VError _ => JObj ∅
  end.

(** The object literal [{ error: m }] as [res.json] serialises it: a
    property whose value is [undefined] is left out. *)
Definition error_object (m : JsVal) : Json :=
  match m with
  | VUndefined => JObj ∅
  | VData j => JObj {[ "error" := j ]}
  | VError _ => JObj {[ "error" := JObj ∅ ]}
  end.

(** [res.status(code)] accepts an integer from 100 to 999 and throws on
    everything else: the [Error] thrown, if any. *)
Definition status_error (code : JsVal) : option JsVal :=
  match code with
  | VData (JNum n) =>
      if (100 <=? n) && (n <=? 999) then None
      else Some (VError ("Invalid status code: " +:+ pretty n
                           +:+ ". Status code must be greater than 99 and less than 1000."))
  | other =>
      Some (VError ("Invalid status code: "
                      +:+ default "undefined" (JSON_stringify other)
                      +:+ ". Status code must be an integer."))
  end.

(** The [try] block after the handler has returned [result]. *)
Definition write_result (result : JsVal) : ExpressResponse + JsVal :=
  match get_property result "body" with
  | inr type_error => inr type_error
  | inl result_body =>
      let parsed :=
        match result_body with
        | VData (JStr s) =>
            match JSON_parse s with
            | inl j => inl (VData j)
            | inr syntax_error => inr (VError syntax_error)
            end
        | other => inl other
        end in
      match parsed, get_property result "statusCode" with
      | inl result_body', inl code =>
          match status_error (or_else code (VData (JNum 200))) with
          | Some range_error => inr range_error
          | None =>
              inl {| status := or_else code (VData (JNum 200));
                     sent := json_sent (or_else result_body'
                                          (VData (JObj ∅))) |}
          end
      | inr e, _ | _, inr e => inr e
      end
  end.

(** The [catch (e: any)] block: [res.status(500).json({ error: e.message })]. *)
Definition write_error (e : JsVal) : Dispatched :=
  match get_property e "message" with
  | inl m => Responded {| status := VData (JNum 500); sent := error_object m |}
  | inr type_error => Escaped type_error
  end.

(** The request the handler sees. *)
Definition invocation_request (req : ExpressRequest) : IRequest :=
  {| pathParameters := req_params req;
     request_body :=
       if truthy (req_body req) && typeof_object (req_body req)
       then match JSON_stringify (req_body req) with
            | Some s => VStr s
            | None => VUndefined
            end
       else req_body req |}.

(** [async (req, res) => { try { ... } catch (e) { ... } }] for the
    operation [handler] of a controller instance. *)
Definition route_callback (handler : IRequest -> Async JsVal)
    (req : ExpressRequest) (w : World) : Dispatched * World :=
  match handler (invocation_request req) w with
  | (Returned result, w') =>
      (match write_result result with
       | inl res => Responded res
       | inr e => write_error e
       end, w')
  | (Thrown e, w') => (write_error e, w')
  end.
End Json_text.

(* ================================================================== *)
(** ** testing/decorators.ts: the route metadata *)
(* ================================================================== *)

Module Decorators.

(** The verbs the decorator factories [Get], [Post], [Put], [Patch] and
    [Delete] record. *)
Inductive HttpMethod : Type := GET | POST | PUT | PATCH | DELETE.

#[export] Instance HttpMethod_eq_dec : EqDecision HttpMethod.
Proof. solve_decision. Defined.

(** One own property of a controller prototype (other than [constructor])
    with the ['route'] and ['method'] metadata attached to it, if any. *)
Record Operation : Type := mkOperation {
  methodName : string;
  route : option string;
  method : option HttpMethod
}.

(** A class pushed on [controllers] by [@Controller(basePath)]. *)
Record ControllerClass : Type := mkController {
  basePath : option string;
  operations : list Operation
}.

(** [createRoute(route)(method)] applied to the member [propertyKey]. *)
Definition createRoute (r : string) (m : HttpMethod) (propertyKey : string)
    : Operation :=
  {| methodName := propertyKey; route := Some r; method := Some m |}.

Definition Get (r : string) := createRoute r GET.
Definition Post (r : string) := createRoute r POST.
Definition Put (r : string) := createRoute r PUT.
Definition Patch (r : string) := createRoute r PATCH.
Definition Delete (r : string) := createRoute r DELETE.

(** [@Controller(basePath)]: records the base path and appends the class to
    the registry. *)
Definition Controller (base : string) (ops : list Operation)
    (controllers : list ControllerClass) : list ControllerClass :=
  (controllers ++ [ {| basePath := Some base; operations := ops |} ])%list.

End Decorators.

(* ================================================================== *)
(** ** testing/server.ts: building the routing table *)
(* ================================================================== *)

Module Server.
Import Decorators.

(** [httpMethod.toUpperCase()] and [httpMethod] itself (lower case). *)
Definition toUpperCase (m : HttpMethod) : string :=
  match m with
  | GET => "GET" | POST => "POST" | PUT => "PUT"
  | PATCH => "PATCH" | DELETE => "DELETE"
  end.

Definition toLowerCase (m : HttpMethod) : string :=
  match m with
  | GET => "get" | POST => "post" | PUT => "put"
  | PATCH => "patch" | DELETE => "delete"
  end.

(** [Boolean] on a string that may be [undefined]. *)
Definition Boolean (s : option string) : bool :=
  match s with
  | Some s => negb (bool_decide (s = EmptyString))
  | None => false
  end.

(** [[base, route].filter(Boolean)]. *)
Definition segments (base : string) (route : option string) : list string :=
  omap id (filter (fun s => Is_true (Boolean s)) [Some base; route]).

(** [`/${[base, route].filter(Boolean).join('/')}`]. *)
Definition fullPath (base : string) (route : option string) : string :=
  "/" +:+ join "/" (segments base route).

(** [`[${httpMethod.toUpperCase()}] ${fullPath}`]. *)
Definition route_label (m : HttpMethod) (path : string) : string :=
  "[" +:+ toUpperCase m +:+ "] " +:+ path.

(** One entry of the Express router: [app[httpMethod](fullPath, callback)],
    the callback being the one of [route_callback] for [instance[methodName]]. *)
Record Route : Type := mkRoute {
  verb : HttpMethod;
  path : string;
  controller : nat;
  operation : string
}.

(** [Reflect.getMetadata('basePath', ctor) || '']. *)
Definition base_of (c : ControllerClass) : string :=
  match basePath c with
  | Some b => b
  | None => EmptyString
  end.

(** The operations in the order the two nested [forEach] visit them, each
    with the index and base path of its controller. *)
Definition visit_order (controllers : list ControllerClass)
    : list (nat * string * Operation) :=
  concat (imap (fun i c => (fun op => (i, base_of c, op)) <$> operations c)
               controllers).

(** The life of the process. *)
Inductive Process : Type :=
| STARTING (pending : list (nat * string * Operation))
           (routes : list string) (app : list Route)
| LISTENING (app : list Route)
| ABORTED (error : string).

(** The body of [methodNames.forEach] for one operation. *)
Definition register (i : nat) (base : string) (op : Operation)
    (routes : list string) (app : list Route)
    : string + (list string * list Route) :=
  let full := fullPath base (route op) in
  match method op with
  | Some httpMethod =>
      if Boolean (Some full) then
        let label := route_label httpMethod full in
        if bool_decide (label ∈ routes)
        then inl ("Duplicate Route: " +:+ label)
        else inr ((routes ++ [label])%list,
                  (app ++ [ {| verb := httpMethod; path := full;
                               controller := i;
                               operation := methodName op |} ])%list)
      else inr (routes, app)
  | None => inr (routes, app)
  end.

(** One step of the start-up: register the next operation, or, when none is
    left, call [app.listen].  A [throw] at module level ends the process. *)
Definition step (p : Process) : Process :=
  match p with
  | STARTING [] routes app => LISTENING app
  | STARTING ((i, base, op) :: pending) routes app =>
      match register i base op routes app with
      | inl error => ABORTED error
      | inr (routes', app') => STARTING pending routes' app'
      end
  | LISTENING app => LISTENING app
  | ABORTED error => ABORTED error
  end.

Definition boot (controllers : list ControllerClass) : Process :=
  STARTING (visit_order controllers) [] [].

Fixpoint run (n : nat) (p : Process) : Process :=
  match n with
  | O => p
  | S n' => run n' (step p)
  end.

End Server.

(* ================================================================== *)
(** ** Concrete JSON texts for running the handlers on examples *)
(* ================================================================== *)

Module Fixture.

Definition quote_char : Ascii.ascii := Ascii.ascii_of_nat 34.
Definition backslash_char : Ascii.ascii := Ascii.ascii_of_nat 92.

Fixpoint escaped (s : string) : string :=
  match s with
  | EmptyString => EmptyString
  | String c s' =>
      if bool_decide (c = quote_char) || bool_decide (c = backslash_char)
      then String backslash_char (String c (escaped s'))
      else String c (escaped s')
  end.

Definition quoted (s : string) : string :=
  String quote_char (escaped s) +:+ String quote_char EmptyString.

(** A compact JSON writer (members in the order of the finite map). *)
Fixpoint compact_json (j : Json) : string :=
  match j with
  | JNull => "null"
  | JBool true => "true"
  | JBool false => "false"
  | JNum n => pretty n
  | JStr s => quoted s
  | JArr xs =>
      "[" +:+ join ","
        ((fix elems (l : list Json) : list string :=
            match l with
            | [] => []
            | x :: l' => compact_json x :: elems l'
            end) xs) +:+ "]"
  | JObj props =>
      "{" +:+ join ","
        (map_fold (fun k v acc => (quoted k +:+ ":" +:+ compact_json v) :: acc)
                  [] props) +:+ "}"
  end.

(** A reader that knows the texts of the values in [known] and rejects every
    other text. *)
Definition parse_known (known : list Json) (text : string) : Json + string :=
  match List.find (fun j => bool_decide (compact_json j = text)) known with
  | Some j => inl j
  | None => inr "Unexpected token"
  end.

Definition ITEM := DynamoDbService.Resource DynamoDbService.ITEM.

(** An empty store, and a store holding one item created earlier. *)
Definition nothing : World := {| heap := ∅; table := ∅ |}.

Definition stored_item : Obj :=
  {[ "PK" := JStr "ITEM#1"; "SK" := JStr "ITEM"; "id" := JStr "1";
     "createdOn" := JStr "2025-01-01T00:00:00.000Z";
     "lastModifiedOn" := JStr "2025-01-01T00:00:00.000Z";
     "name" := JStr "A"; "description" := JStr "B" ]}.

(** The body of [PUT /items/1] renaming the item. *)
Definition patch : Obj := {[ "id" := JStr "1"; "name" := JStr "C" ]}.

(** A store with the item, and the caller's object [patch] at reference 0. *)
Definition one_item : World :=
  {| heap := {[ 0%nat := patch ]};
     table := {[ ("ITEM#1", "ITEM") := stored_item ]} |}.

(** The same body carrying 2^53, and the store with that body as the
    caller's object. *)
Definition unsafe_patch : Obj := <["n" := JNum 9007199254740992]> patch.

Definition one_item_unsafe_patch : World :=
  {| heap := {[ 0%nat := unsafe_patch ]};
     table := {[ ("ITEM#1", "ITEM") := stored_item ]} |}.

(** The payload of [POST /items]. *)
Definition new_item : Obj := {[ "name" := JStr "A"; "description" := JStr "B" ]}.

Definition before_create : World :=
  {| heap := {[ 0%nat := new_item ]}; table := ∅ |}.

(** A store answering the index query in two pages. *)
Definition page1 : DynamoDbService.QueryOutput :=
  DynamoDbService.mkPage (Some [stored_item])
    (Some {[ "PK" := JStr "ITEM#1"; "SK" := JStr "ITEM" ]}).

End Fixture.

(* ================================================================== *)
(** ** Vocabulary of the properties *)
(* ================================================================== *)

Module DB := DynamoDbService.

Local Open Scope list_scope.

(** The attributes [create] leaves on the object it was given. *)
Definition created (v4 now now' : string) (pk sk : DB.RESOURCE_FILTER)
    (e : Obj) : Obj :=
  <["lastModifiedOn" := JStr now']>
    (<["SK" := JStr (DB.filter_string sk)]>
       (<["PK" := JStr (DB.partition_key pk (VStr v4))]>
          (<["createdOn" := JStr now]> (<["id" := JStr v4]> e)))).

(** The attributes [createLink] leaves on the object it was given. *)
Definition linked (now now' : string) (pk sk : DB.RESOURCE_FILTER)
    (e : Obj) : Obj :=
  <["lastModifiedOn" := JStr now']>
    (<["SK" := JStr (DB.filter_string sk)]>
       (<["PK" := JStr (DB.filter_string pk)]>
          (<["createdOn" := JStr now]> e))).

(** A field name other than the five the service manages. *)
Definition business_field (f : string) : Prop :=
  f ∉ ["id"; "createdOn"; "lastModifiedOn"; "PK"; "SK"].

(** Data without a [__proto__] key, at any depth. *)
Fixpoint proto_free (j : Json) : bool :=
  match j with
  | JArr xs =>
      (fix all (l : list Json) : bool :=
         match l with
         | [] => true
         | x :: l' => proto_free x && all l'
         end) xs
  | JObj props =>
      bool_decide (props !! "__proto__" = None)
      && map_fold (fun _ v rest => proto_free v && rest) true props
  | _ => true
  end.

(** An object the document client stores as it is: every number in it is a
    safe integer and no object in it has a [__proto__] key. *)
Definition storable (o : Obj) : Prop :=
  DB.unsafe_number (JObj o) = None /\ proto_free (JObj o) = true.

(** A property the loop of [update] does not copy: the two names it skips
    and the one name that is no property. *)
Definition skipped (prop : string) : bool :=
  DB.immutable prop || String.eqb prop "__proto__".

(** The attributes the loop of [update] leaves on [existingItem], started
    with [o], after it has gone through the properties [l] of the incoming
    object. *)
Fixpoint merge_props (l : list (string * Json)) (o : Obj) : Obj :=
  match l with
  | [] => o
  | (k, v) :: l' => merge_props l' (if skipped k then o else <[k := v]> o)
  end.

(** [resource["id"]] as a value. *)
Definition id_of (p : Obj) : JsVal :=
  match p !! "id" with Some j => VData j | None => VUndefined end.

(** The incoming object once [update] has set its [PK] and [SK]. *)
Definition keyed (pk sk : DB.RESOURCE_FILTER) (p : Obj) : Obj :=
  <["SK" := JStr (DB.filter_string sk)]>
    (<["PK" := JStr (DB.partition_key pk (id_of p))]> p).

(** The record [update] writes back over [stored]. *)
Definition updated (now : string) (pk sk : DB.RESOURCE_FILTER)
    (p stored : Obj) : Obj :=
  <["lastModifiedOn" := JStr now]>
    (merge_props (map_to_list (keyed pk sk p))
       (delete "PK" (delete "SK" stored))).



(** A record handed to a caller of [list] or of [get]. *)
Inductive exposed : Obj -> Prop :=
| exposed_by_list (send : DB.QueryInput -> Outcome DB.QueryOutput)
    (fuel : nat) (sk pk : DB.RESOURCE_FILTER) (records : list Obj)
    (record : Obj) :
    DB.list send fuel sk pk = Some (Returned records) ->
    record ∈ records ->
    exposed record
| exposed_by_get (id : JsVal) (pk sk : DB.RESOURCE_FILTER) (w w' : World)
    (record : Obj) :
    DB.get id pk sk w = (Returned (Some record), w') ->
    exposed record.

Import Decorators.

Definition slash : Ascii.ascii := Ascii.ascii_of_nat 47.

(** How many ["/"] a string begins with. *)
Fixpoint leading_slashes (s : string) : nat :=
  match s with
  | String c s' => if bool_decide (c = slash) then S (leading_slashes s') else 0
  | EmptyString => 0
  end.

(** The verb and full path an entry of the visit resolves to, when its
    member carries the metadata. *)
Definition resolved (entry : nat * string * Operation)
    : option (HttpMethod * string) :=
  let '(_, base, op) := entry in
  (fun m => (m, Server.fullPath base (route op))) <$> method op.

Definition label_of (entry : nat * string * Operation) : option string :=
  (fun r => Server.route_label r.1 r.2) <$> resolved entry.

Definition labels (entries : list (nat * string * Operation)) : list string :=
  omap label_of entries.

(** The five controllers of the repository, as their decorators declare
    them. *)
Definition items_controllers : list ControllerClass :=
  Controller "items" [Delete ":id" "handler"]
    (Controller "items" [Get ":id" "handler"]
       (Controller "items" [Put ":id" "handler"]
          (Controller "items" [Post EmptyString "handler"]
             (Controller "items" [Get EmptyString "handler"] [])))).

(** [instance[methodName](req)] for a controller operation: its response is
    the object the callback goes on to inspect. *)
Definition invoke (operation : IRequest -> Async LambdaResponse)
    (request : IRequest) : Async JsVal :=
  r ← operation request; mret (response_value r).

(** The key [get] and [update] look up for the id [id] of an item. *)
Definition item_key (id : JsVal) : string * string :=
  (DB.partition_key Fixture.ITEM id, DB.filter_string Fixture.ITEM).

(* ================================================================== *)
(** ** The other item controllers *)
(* ================================================================== *)

(** Parsed data as the object [create] works on, [prop] being the first
    property it assigns.  An array takes the assignments, but it is no
    item: the document client's request fails (with an [Error] of the
    store, whose text is not followed here). *)
Definition resource_of (prop : string) (j : Json) : Async loc :=
  match j with
  | JObj props => alloc props
  | JArr _ => throw (VError "One or more parameter values were invalid")
  | _ => throw (VError (cannot_assign prop j))
  end.

(** The object literal [{ k: v }] as [JSON.stringify] sees it: a property
    whose value is [undefined] is left out. *)
Definition object_literal (k : string) (v : JsVal) : JsVal :=
  VData (JObj (match v with
               | VUndefined => ∅
               | VData j => {[ k := j ]}
               | VError _ => {[ k := JObj ∅ ]}
               end)).

Section Other_controllers.
Variable JSON_text : Json -> string.
Variable JSON_parse : string -> Json + string.

(** [ItemsCreateController.handler]; [v4], [now] and [now'] are what
    [create] draws and reads. *)
Definition ItemsCreateController_handler (v4 now now' : string)
    (request : IRequest) : Async LambdaResponse :=
  try_catch
    (match JSON_parse (ToString (request_body request)) with
     | inr syntax_error => throw (VError syntax_error)
     | inl parsed =>
         resource ← resource_of "id" parsed;
         id ← DB.create v4 now now' resource
                (DB.Resource DB.ITEM) (DB.Resource DB.ITEM);
         mret (buildResponseBody JSON_text 201 (object_literal "id" id) ALLOW)
     end)
    (on_error JSON_text).

(** [ItemsDeleteController.handler]. *)
Definition ItemsDeleteController_handler (request : IRequest)
    : Async LambdaResponse :=
  try_catch
    (DB.delete (pathParameters_id request)
       (DB.Resource DB.ITEM) (DB.Resource DB.ITEM) ;;
     mret (buildResponseBody JSON_text 204 VUndefined ALLOW))
    (on_error JSON_text).

(** [ItemsListController.handler], for a store that answers the index
    query as [send] does; [None] when the fuel of [list] runs out. *)
Definition ItemsListController_handler
    (send : DB.QueryInput -> Outcome DB.QueryOutput) (fuel : nat)
    : option (Async LambdaResponse) :=
  match DB.list send fuel (DB.Resource DB.ITEM) (DB.Resource DB.ITEM) with
  | None => None
  | Some (Returned items) =>
      Some (mret (buildResponseBody JSON_text 200
                    (VData (JArr (JObj <$> items))) ALLOW))
  | Some (Thrown error) => Some (on_error JSON_text error)
  end.
End Other_controllers.

(* ================================================================== *)
(** ** More vocabulary *)
(* ================================================================== *)

(** The pages the store serves from [start] on before it fails with [e]. *)
Inductive fails_after (send : DB.QueryInput -> Outcome DB.QueryOutput)
    (sk pk : string) (e : JsVal)
    : option Obj -> list DB.QueryOutput -> Prop :=
| fails_now (start : option Obj) :
    send (DB.mkQuery sk pk start) = Thrown e ->
    fails_after send sk pk e start []
| fails_later (start : option Obj) (page : DB.QueryOutput) (key : Obj)
    (pages : list DB.QueryOutput) :
    send (DB.mkQuery sk pk start) = Returned page ->
    DB.LastEvaluatedKey page = Some key ->
    fails_after send sk pk e (Some key) pages ->
    fails_after send sk pk e start (page :: pages).

(** The entry of the Express router that an operation with metadata is
    registered as. *)
Definition route_of (entry : nat * string * Operation) : option Server.Route :=
  let '(i, base, op) := entry in
  (fun m => Server.mkRoute m (Server.fullPath base (route op)) i (methodName op))
    <$> method op.

(* ================================================================== *)
(** * Properties *)
(* ================================================================== *)

(** Evaluation of the service's straight-line code: unfold the monad and
    resolve the property lookups. *)
Ltac lookups :=
  repeat (rewrite lookup_insert_eq || rewrite lookup_insert_ne by done).

Ltac js_eval :=
  unfold DB.putItem, DB.GetCommand, DB.DeleteCommand,
    writeProp, readProp, alloc, throw, mbind, async_bind, mret, async_ret,
    obj_at, with_heap, with_table;
  cbn -[DB.partition_key DB.filter_string fresh DB.PutCommand];
  repeat (lookups; cbn -[DB.partition_key DB.filter_string fresh DB.PutCommand]).

(** ** The object heap *)

Lemma obj_at_insert (w : World) (h : gmap loc Obj) (r : loc) (o : Obj) :
  obj_at (with_heap w (<[r := o]> h)) r = o.
Proof. unfold obj_at, with_heap; cbn. by rewrite lookup_insert_eq. Qed.

Lemma obj_at_heap (w : World) (r : loc) (o : Obj) :
  heap w !! r = Some o -> obj_at w r = o.
Proof. intros H. unfold obj_at. by rewrite H. Qed.

Lemma run_bind {A B} (m : Async A) (k : A -> Async B) (w w' : World) (a : A) :
  m w = (Returned a, w') -> (m ≫= k) w = k a w'.
Proof. intros H. unfold mbind, async_bind. by rewrite H. Qed.

Lemma run_bind_thrown {A B} (m : Async A) (k : A -> Async B) (w w' : World)
    (e : JsVal) :
  m w = (Thrown e, w') -> (m ≫= k) w = (Thrown e, w').
Proof. intros H. unfold mbind, async_bind. by rewrite H. Qed.

(** ** What the document client stores *)

Lemma unsafe_number_object (o : Obj) :
  DB.unsafe_number (JObj o) = None <->
  map_Forall (fun _ v => DB.unsafe_number v = None) o.
Proof.
  change (DB.unsafe_number (JObj o))
    with (map_fold (fun (_ : string) v found =>
                      match found with
                      | Some n => Some n
                      | None => DB.unsafe_number v
                      end) None o).
  apply (map_fold_weak_ind
           (fun found m =>
              found = None <->
              map_Forall (fun _ v => DB.unsafe_number v = None) m)).
  - split; [intros _; apply map_Forall_empty|done].
  - intros k v m found Hk IH. rewrite map_Forall_insert by done.
    destruct found as [n|].
    + split; [discriminate|]. intros [_ H]. by apply IH in H.
    + split; [intros Hv; split; [done|by apply IH]|by intros [Hv _]].
Qed.

Lemma safe_insert (o : Obj) (k : string) (v : Json) :
  DB.unsafe_number v = None ->
  DB.unsafe_number (JObj o) = None ->
  DB.unsafe_number (JObj (<[k := v]> o)) = None.
Proof.
  rewrite !unsafe_number_object. intros Hv Ho. by apply map_Forall_insert_2.
Qed.

Lemma safe_delete (o : Obj) (k : string) :
  DB.unsafe_number (JObj o) = None ->
  DB.unsafe_number (JObj (delete k o)) = None.
Proof. rewrite !unsafe_number_object. apply map_Forall_delete. Qed.

Lemma safe_lookup (o : Obj) (k : string) (v : Json) :
  DB.unsafe_number (JObj o) = None ->
  o !! k = Some v ->
  DB.unsafe_number v = None.
Proof.
  rewrite unsafe_number_object. intros Ho Hk. by apply (Ho k v).
Qed.

Lemma unsafe_attribute (o : Obj) (k : string) (v : Json) (n : Z) :
  o !! k = Some v ->
  DB.unsafe_number v = Some n ->
  exists n', DB.unsafe_number (JObj o) = Some n'.
Proof.
  intros Hk Hv. destruct (DB.unsafe_number (JObj o)) as [n'|] eqn:Ho.
  - by exists n'.
  - rewrite (safe_lookup o k v Ho Hk) in Hv. discriminate.
Qed.

Lemma storable_safe (o : Obj) :
  storable o -> DB.unsafe_number (JObj o) = None.
Proof. by intros [H _]. Qed.

Lemma storable_no_proto (o : Obj) :
  storable o -> o !! "__proto__" = None.
Proof.
  intros [_ H]. cbn [proto_free] in H.
  apply andb_true_iff in H as [H _]. by apply bool_decide_eq_true in H.
Qed.

Lemma safe_created (v4 now now' : string) (pk sk : DB.RESOURCE_FILTER)
    (e : Obj) :
  DB.unsafe_number (JObj e) = None ->
  DB.unsafe_number (JObj (created v4 now now' pk sk e)) = None.
Proof. intros He. unfold created. by repeat apply safe_insert. Qed.

Lemma PutCommand_run (r : loc) (w : World) (item : Obj) (p s : string) :
  heap w !! r = Some item ->
  DB.unsafe_number (JObj item) = None ->
  item !! "PK" = Some (JStr p) ->
  item !! "SK" = Some (JStr s) ->
  DB.PutCommand r w
    = (Returned tt, with_table w (<[(p, s) := item]> (table w))).
Proof.
  intros Hr Hsafe Hp Hs. unfold DB.PutCommand.
  rewrite (obj_at_heap _ _ _ Hr). cbv zeta. by rewrite Hsafe, Hp, Hs.
Qed.

Lemma PutCommand_refuses (r : loc) (w : World) (item : Obj) (n : Z) :
  heap w !! r = Some item ->
  DB.unsafe_number (JObj item) = Some n ->
  DB.PutCommand r w = (Thrown (VError (DB.not_a_safe_integer n)), w).
Proof.
  intros Hr Hunsafe. unfold DB.PutCommand.
  rewrite (obj_at_heap _ _ _ Hr). cbv zeta. by rewrite Hunsafe.
Qed.

(** ** [create] and [get] *)

(** [create] has written its five attributes on the caller's object when
    it hands the object to the document client. *)
Lemma create_reaches_put (v4 now now' : string) (r : loc)
    (pk sk : DB.RESOURCE_FILTER) (w : World) :
  DB.create v4 now now' r pk sk w =
    (DB.PutCommand r ;; readProp r "id")
      (with_heap w (<[r := created v4 now now' pk sk (obj_at w r)]> (heap w))).
Proof.
  unfold DB.create, created. js_eval.
  rewrite !insert_insert_eq. reflexivity.
Qed.

Lemma create_run (v4 now now' : string) (r : loc)
    (pk sk : DB.RESOURCE_FILTER) (w : World) :
  DB.unsafe_number (JObj (created v4 now now' pk sk (obj_at w r))) = None ->
  DB.create v4 now now' r pk sk w =
    (Returned (VStr v4),
     {| heap := <[r := created v4 now now' pk sk (obj_at w r)]> (heap w);
        table := <[(DB.partition_key pk (VStr v4), DB.filter_string sk) :=
                     created v4 now now' pk sk (obj_at w r)]> (table w) |}).
Proof.
  intros Hsafe. rewrite create_reaches_put.
  erewrite run_bind.
  2:{ apply (PutCommand_run r _ (created v4 now now' pk sk (obj_at w r))
               (DB.partition_key pk (VStr v4)) (DB.filter_string sk)).
      - apply lookup_insert_eq.
      - exact Hsafe.
      - unfold created. by lookups.
      - unfold created. by lookups. }
  unfold readProp, obj_at, with_table, with_heap. cbn [heap table].
  rewrite lookup_insert_eq. unfold created, id. cbn [default from_option].
  by lookups.
Qed.

Lemma create_refused (v4 now now' : string) (r : loc)
    (pk sk : DB.RESOURCE_FILTER) (w : World) (n : Z) :
  DB.unsafe_number (JObj (created v4 now now' pk sk (obj_at w r))) = Some n ->
  DB.create v4 now now' r pk sk w =
    (Thrown (VError (DB.not_a_safe_integer n)),
     with_heap w (<[r := created v4 now now' pk sk (obj_at w r)]> (heap w))).
Proof.
  intros Hunsafe. rewrite create_reaches_put.
  erewrite run_bind_thrown; [reflexivity|].
  apply (PutCommand_refuses r _ (created v4 now now' pk sk (obj_at w r)));
    [apply lookup_insert_eq|exact Hunsafe].
Qed.

Lemma get_run (id : JsVal) (pk sk : DB.RESOURCE_FILTER) (w : World) :
  DB.get id pk sk w =
    (Returned ((fun item => delete "PK" (delete "SK" item)) <$>
                 table w !! (DB.partition_key pk id, DB.filter_string sk)), w).
Proof.
  unfold DB.get. js_eval.
  destruct (table w !! _); reflexivity.
Qed.

Lemma business_field_ne (f : string) :
  business_field f ->
  "id" ≠ f /\ "createdOn" ≠ f /\ "lastModifiedOn" ≠ f /\ "PK" ≠ f /\ "SK" ≠ f.
Proof.
  unfold business_field. rewrite !not_elem_of_cons.
  intros (H1 & H2 & H3 & H4 & H5 & _). repeat split; congruence.
Qed.

Lemma created_fields (v4 now now' : string) (pk sk : DB.RESOURCE_FILTER)
    (e : Obj) :
  created v4 now now' pk sk e !! "id" = Some (JStr v4) /\
  created v4 now now' pk sk e !! "createdOn" = Some (JStr now) /\
  created v4 now now' pk sk e !! "lastModifiedOn" = Some (JStr now') /\
  created v4 now now' pk sk e !! "PK"
    = Some (JStr (DB.filter_string pk +:+ "#" +:+ v4)) /\
  created v4 now now' pk sk e !! "SK" = Some (JStr (DB.filter_string sk)) /\
  (forall f, business_field f -> created v4 now now' pk sk e !! f = e !! f).
Proof.
  unfold created. repeat apply conj; lookups; try reflexivity.
  intros f Hf. destruct (business_field_ne f Hf) as (? & ? & ? & ? & ?).
  by lookups.
Qed.

(** C10. [create(resource, pk, sk)] works on the caller's own object.
    However the call ends, the object at the same reference then carries
    [id], [createdOn], [lastModifiedOn], [PK] and [SK] and its other
    attributes are as they were.  For an object that the document client
    stores, the call returns the new id, and nothing but the id, while the
    table holds a copy of the mutated object; the only other way for the
    call to end is the [Error] of a refused item, and then the table is as
    before, the object mutated all the same. *)
Theorem create_mutates_the_caller_object (v4 now now' : string) (r : loc)
    (pk sk : DB.RESOURCE_FILTER) (w : World) (e : Obj) :
  heap w !! r = Some e ->
  exists out w' o,
    DB.create v4 now now' r pk sk w = (out, w') /\
    heap w' !! r = Some o /\
    o !! "id" = Some (JStr v4) /\
    o !! "createdOn" = Some (JStr now) /\
    o !! "lastModifiedOn" = Some (JStr now') /\
    o !! "PK" = Some (JStr (DB.filter_string pk +:+ "#" +:+ v4)) /\
    o !! "SK" = Some (JStr (DB.filter_string sk)) /\
    (forall f, business_field f -> o !! f = e !! f) /\
    (storable e ->
     out = Returned (VStr v4) /\
     table w' !! (DB.filter_string pk +:+ "#" +:+ v4, DB.filter_string sk)
       = Some o) /\
    (out = Returned (VStr v4) \/
     exists message, out = Thrown (VError message) /\ table w' = table w).
Proof.
  intros He.
  destruct (created_fields v4 now now' pk sk e)
    as (Hid & Hcreated & Hmodified & Hpk & Hsk & Hother).
  destruct (DB.unsafe_number (JObj (created v4 now now' pk sk e)))
    as [n|] eqn:Hsafe.
  - eexists _, _, (created v4 now now' pk sk e).
    rewrite <- (obj_at_heap _ _ _ He) in Hsafe.
    rewrite (create_refused v4 now now' r pk sk w n Hsafe).
    rewrite (obj_at_heap _ _ _ He) in *.
    split; [reflexivity|]. cbn [heap table with_heap].
    split; [apply lookup_insert_eq|].
    repeat apply conj; try done.
    + intros [Hnum _]. apply (safe_created v4 now now' pk sk) in Hnum.
      congruence.
    + right. by eexists.
  - eexists _, _, (created v4 now now' pk sk e).
    rewrite <- (obj_at_heap _ _ _ He) in Hsafe.
    rewrite (create_run v4 now now' r pk sk w Hsafe).
    rewrite (obj_at_heap _ _ _ He) in *.
    split; [reflexivity|]. cbn [heap table].
    split; [apply lookup_insert_eq|].
    repeat apply conj; try done.
    + intros _. split; [reflexivity|apply lookup_insert_eq].
    + by left.
Qed.

Lemma create_mutates_the_caller_object_witness :
  heap Fixture.before_create !! 0%nat = Some Fixture.new_item /\
  storable Fixture.new_item /\
  exists w' o,
    DB.create "6f1c" "t0" "t1" 0%nat Fixture.ITEM Fixture.ITEM
      Fixture.before_create = (Returned (VStr "6f1c"), w') /\
    heap w' !! 0%nat = Some o /\
    o !! "id" = Some (JStr "6f1c") /\
    o !! "createdOn" = Some (JStr "t0") /\
    o !! "lastModifiedOn" = Some (JStr "t1") /\
    o !! "PK" = Some (JStr "ITEM#6f1c") /\
    o !! "SK" = Some (JStr "ITEM") /\
    (forall f, business_field f -> o !! f = Fixture.new_item !! f) /\
    table w' !! ("ITEM#6f1c", "ITEM") = Some o.
Proof.
  assert (storable Fixture.new_item) as Hstorable
    by (split; vm_compute; reflexivity).
  split; [reflexivity|]. split; [exact Hstorable|].
  destruct (create_mutates_the_caller_object "6f1c" "t0" "t1" 0%nat
              Fixture.ITEM Fixture.ITEM Fixture.before_create
              Fixture.new_item eq_refl)
    as (out & w' & o & Hrun & Hheap & Hid & Hcreated & Hmodified & Hpk & Hsk
        & Hother & Hstored & _).
  destruct (Hstored Hstorable) as [Hout Htable].
  rewrite Hout in Hrun.
  exists w', o. repeat apply conj; assumption.
Defined.

(** C4. For a payload [e] that the document client stores and that has no
    [PK] and no [SK] attribute of its own, [create] returns the new id and
    [get] on that id returns [e] with [id], [createdOn] and
    [lastModifiedOn] added, and neither [PK] nor [SK]. *)
Theorem create_get_round_trip (v4 now now' : string) (r : loc)
    (pk sk : DB.RESOURCE_FILTER) (w : World) (e : Obj) :
  heap w !! r = Some e ->
  storable e ->
  e !! "PK" = None ->
  e !! "SK" = None ->
  exists id w' w'' rec,
    DB.create v4 now now' r pk sk w = (Returned id, w') /\
    DB.get id pk sk w' = (Returned (Some rec), w'') /\
    rec = <["lastModifiedOn" := JStr now']>
            (<["createdOn" := JStr now]> (<["id" := JStr v4]> e)) /\
    rec !! "PK" = None /\ rec !! "SK" = None.
Proof.
  intros He [Hsafe _] Hpk Hsk. eexists _, _, _, _.
  rewrite create_run, (obj_at_heap _ _ _ He);
    [|rewrite (obj_at_heap _ _ _ He); by apply safe_created].
  split; [reflexivity|].
  rewrite get_run. cbn [table]. rewrite lookup_insert_eq. cbn [fmap option_fmap option_map].
  assert (delete "PK" (delete "SK" (created v4 now now' pk sk e)) =
          <["lastModifiedOn" := JStr now']>
            (<["createdOn" := JStr now]> (<["id" := JStr v4]> e))) as ->.
  { apply map_eq. intros f. unfold created.
    destruct (decide (f = "PK")) as [->|]; [by rewrite lookup_delete_eq; lookups|].
    rewrite lookup_delete_ne by done.
    destruct (decide (f = "SK")) as [->|]; [by rewrite lookup_delete_eq; lookups|].
    rewrite lookup_delete_ne by done.
    destruct (decide (f = "lastModifiedOn")) as [->|]; [by lookups|].
    rewrite !(lookup_insert_ne _ "lastModifiedOn") by done.
    by rewrite (lookup_insert_ne _ "SK"), (lookup_insert_ne _ "PK") by done. }
  repeat split; by lookups.
Qed.

Lemma create_get_round_trip_witness :
  heap Fixture.before_create !! 0%nat = Some Fixture.new_item /\
  storable Fixture.new_item /\
  Fixture.new_item !! "PK" = None /\
  Fixture.new_item !! "SK" = None /\
  exists id w' w'' rec,
    DB.create "6f1c" "t0" "t1" 0%nat Fixture.ITEM Fixture.ITEM
      Fixture.before_create = (Returned id, w') /\
    DB.get id Fixture.ITEM Fixture.ITEM w' = (Returned (Some rec), w'') /\
    rec = <["lastModifiedOn" := JStr "t1"]>
            (<["createdOn" := JStr "t0"]>
               (<["id" := JStr "6f1c"]> Fixture.new_item)) /\
    rec !! "PK" = None /\ rec !! "SK" = None.
Proof.
  assert (storable Fixture.new_item) as Hstorable
    by (split; vm_compute; reflexivity).
  split; [reflexivity|]. split; [exact Hstorable|].
  split; [reflexivity|]. split; [reflexivity|].
  apply (create_get_round_trip "6f1c" "t0" "t1" 0%nat Fixture.ITEM
           Fixture.ITEM Fixture.before_create Fixture.new_item);
    [reflexivity|exact Hstorable|reflexivity|reflexivity].
Defined.

(** ** [update] *)

Lemma for_each_merge (x : loc) (l : list (string * Json)) :
  forall (w : World) (o : Obj),
    heap w !! x = Some o ->
    for_each (fun kv : string * Json =>
                if DB.immutable kv.1 then mret tt
                else writeProp x kv.1 kv.2) l w
    = (Returned tt, with_heap w (<[x := merge_props l o]> (heap w))).
Proof.
  induction l as [|[k v] l IH]; intros w o Hx.
  - cbn. unfold mret, async_ret, with_heap. rewrite insert_id by done.
    by destruct w.
  - cbn [for_each merge_props fst snd]. unfold mbind, async_bind, skipped.
    destruct (DB.immutable k); cbn [orb].
    + unfold mret, async_ret. by apply IH.
    + unfold writeProp at 1. destruct (String.eqb k "__proto__").
      * by apply IH.
      * rewrite (obj_at_heap _ _ _ Hx).
        rewrite (IH _ (<[k := v]> o)); [|cbn; apply lookup_insert_eq].
        unfold with_heap; cbn. by rewrite insert_insert_eq.
Qed.

Lemma immutable_spec (f : string) :
  DB.immutable f = true <-> f = "createdOn" \/ f = "id".
Proof.
  unfold DB.immutable. rewrite bool_decide_eq_true, !elem_of_cons, elem_of_nil.
  tauto.
Qed.

Lemma merge_props_lookup (l : list (string * Json)) :
  forall (o : Obj) (f : string),
    NoDup l.*1 ->
    merge_props l o !! f =
      if skipped f then o !! f
      else match (list_to_map l : Obj) !! f with
           | Some v => Some v
           | None => o !! f
           end.
Proof.
  induction l as [|[k v] l IH]; intros o f Hnd.
  - cbn. rewrite lookup_empty. by destruct (skipped f).
  - rewrite fmap_cons, NoDup_cons in Hnd. destruct Hnd as [Hk Hnd].
    cbn [merge_props]. rewrite IH by done. rewrite list_to_map_cons.
    cbn [fst] in Hk.
    destruct (skipped f) eqn:Hf.
    + destruct (skipped k) eqn:Hkskip; [done|].
      rewrite lookup_insert_ne; [done|]. congruence.
    + destruct (decide (k = f)) as [->|Hne].
      * rewrite Hf, !lookup_insert_eq.
        by rewrite (not_elem_of_list_to_map_1 _ _ Hk).
      * rewrite (lookup_insert_ne _ k f) by done.
        destruct (list_to_map l !! f); [done|].
        destruct (skipped k); [done|]. by rewrite lookup_insert_ne.
Qed.

Lemma keyed_PK (pk sk : DB.RESOURCE_FILTER) (p : Obj) :
  keyed pk sk p !! "PK" = Some (JStr (DB.partition_key pk (id_of p))).
Proof. unfold keyed. by lookups. Qed.

Lemma keyed_SK (pk sk : DB.RESOURCE_FILTER) (p : Obj) :
  keyed pk sk p !! "SK" = Some (JStr (DB.filter_string sk)).
Proof. unfold keyed. by lookups. Qed.

Lemma keyed_other (pk sk : DB.RESOURCE_FILTER) (p : Obj) (f : string) :
  f <> "PK" -> f <> "SK" -> keyed pk sk p !! f = p !! f.
Proof. intros ? ?. unfold keyed. by lookups. Qed.

Lemma merged_skipped (pk sk : DB.RESOURCE_FILTER) (p o : Obj) (f : string) :
  merge_props (map_to_list (keyed pk sk p)) o !! f =
    if skipped f then o !! f
    else match keyed pk sk p !! f with
         | Some v => Some v
         | None => o !! f
         end.
Proof.
  rewrite merge_props_lookup by apply NoDup_fst_map_to_list.
  by rewrite list_to_map_to_list.
Qed.

(** For an incoming object without a [__proto__] key the loop copies every
    property but [id] and [createdOn]. *)
Lemma merged_lookup (pk sk : DB.RESOURCE_FILTER) (p o : Obj) (f : string) :
  p !! "__proto__" = None ->
  merge_props (map_to_list (keyed pk sk p)) o !! f =
    if DB.immutable f then o !! f
    else match keyed pk sk p !! f with
         | Some v => Some v
         | None => o !! f
         end.
Proof.
  intros Hproto. rewrite merged_skipped. unfold skipped.
  destruct (DB.immutable f); [done|]. cbn [orb].
  destruct (String.eqb_spec f "__proto__") as [->|]; [|done].
  by rewrite keyed_other, Hproto.
Qed.

Lemma for_in_merge (r x : loc) (w : World) (p o : Obj) :
  heap w !! r = Some p ->
  heap w !! x = Some o ->
  for_in r (fun prop value =>
              if DB.immutable prop then mret tt
              else writeProp x prop value) w
  = (Returned tt, with_heap w (<[x := merge_props (map_to_list p) o]> (heap w))).
Proof.
  intros Hr Hx. unfold for_in. rewrite (obj_at_heap _ _ _ Hr).
  by apply (for_each_merge x (map_to_list p) w o).
Qed.

(** The state in which [update] looks the record up: the caller's object
    has received its [PK] and [SK]. *)
Lemma update_prefix {B} (now : string) (r : loc) (pk sk : DB.RESOURCE_FILTER)
    (w : World) (p : Obj) (k : JsVal -> Async B) :
  heap w !! r = Some p ->
  (id ← readProp r "id";
   writeProp r "PK" (JStr (DB.partition_key pk id)) ;;
   writeProp r "SK" (JStr (DB.filter_string sk)) ;;
   id ← readProp r "id"; k id) w
  = k (id_of p) (with_heap w (<[r := keyed pk sk p]> (heap w))).
Proof.
  intros Hp.
  unfold readProp, writeProp, mbind, async_bind, obj_at, with_heap.
  cbn -[DB.partition_key DB.filter_string]. rewrite Hp.
  cbn -[DB.partition_key DB.filter_string]. lookups.
  cbn -[DB.partition_key DB.filter_string]. lookups.
  rewrite insert_insert_eq. reflexivity.
Qed.

(** When the record exists, [update] ends with the request to put the
    merged record, held by a new object. *)
Lemma update_reaches_put (now : string) (r : loc) (pk sk : DB.RESOURCE_FILTER)
    (w : World) (p stored : Obj) :
  heap w !! r = Some p ->
  table w !! (DB.partition_key pk (id_of p), DB.filter_string sk)
    = Some stored ->
  DB.update now r pk sk w =
    DB.PutCommand (fresh (dom (<[r := keyed pk sk p]> (heap w))))
      (with_heap w
         (<[fresh (dom (<[r := keyed pk sk p]> (heap w))) :=
              updated now pk sk p stored]>
            (<[r := keyed pk sk p]> (heap w)))).
Proof.
  intros Hp Hstored.
  unfold DB.update. rewrite (update_prefix now r pk sk w p _ Hp).
  set (h := <[r := keyed pk sk p]> (heap w)).
  set (x := fresh (dom h)).
  assert (h !! x = None) as Hfresh.
  { apply not_elem_of_dom, is_fresh. }
  assert (r <> x) as Hrx.
  { intros Heq. rewrite <- Heq in Hfresh. subst h.
    by rewrite lookup_insert_eq in Hfresh. }
  erewrite run_bind; [|rewrite get_run; cbn [table with_heap]; rewrite Hstored; reflexivity].
  cbn [fmap option_fmap option_map].
  erewrite run_bind; [|reflexivity].
  cbn [with_heap heap table]. fold h x.
  erewrite run_bind;
    [|apply (for_in_merge r x _ (keyed pk sk p) (delete "PK" (delete "SK" stored)));
      cbn [heap with_heap];
      [rewrite lookup_insert_ne by congruence; apply lookup_insert_eq
      |apply lookup_insert_eq]].
  unfold DB.putItem.
  erewrite run_bind; [|reflexivity].
  unfold with_heap, obj_at, updated. cbn [heap table].
  rewrite !lookup_insert_eq. cbn [default from_option]. unfold id.
  by rewrite !insert_insert_eq.
Qed.

Lemma updated_keys (now : string) (pk sk : DB.RESOURCE_FILTER) (p stored : Obj) :
  updated now pk sk p stored !! "PK"
    = Some (JStr (DB.partition_key pk (id_of p))) /\
  updated now pk sk p stored !! "SK" = Some (JStr (DB.filter_string sk)).
Proof.
  unfold updated. rewrite !lookup_insert_ne by done.
  rewrite !merged_skipped, keyed_PK, keyed_SK. by split.
Qed.

Lemma safe_merge (l : list (string * Json)) :
  forall o : Obj,
    Forall (fun kv => DB.unsafe_number kv.2 = None) l ->
    DB.unsafe_number (JObj o) = None ->
    DB.unsafe_number (JObj (merge_props l o)) = None.
Proof.
  induction l as [|[k v] l IH]; intros o Hl Ho; [done|].
  apply Forall_cons in Hl as [Hv Hl]. cbn [merge_props].
  apply IH; [done|]. destruct (skipped k); [done|]. by apply safe_insert.
Qed.

Lemma safe_updated (now : string) (pk sk : DB.RESOURCE_FILTER)
    (p stored : Obj) :
  DB.unsafe_number (JObj p) = None ->
  DB.unsafe_number (JObj stored) = None ->
  DB.unsafe_number (JObj (updated now pk sk p stored)) = None.
Proof.
  intros Hp Hstored. unfold updated.
  apply safe_insert; [done|]. apply safe_merge.
  - apply Forall_forall. intros [k v] Hkv%elem_of_map_to_list.
    apply (safe_lookup (keyed pk sk p) k v); [|done].
    unfold keyed. by repeat apply safe_insert.
  - by repeat apply safe_delete.
Qed.

Lemma update_run (now : string) (r : loc) (pk sk : DB.RESOURCE_FILTER)
    (w : World) (p stored : Obj) :
  heap w !! r = Some p ->
  table w !! (DB.partition_key pk (id_of p), DB.filter_string sk)
    = Some stored ->
  DB.unsafe_number (JObj (updated now pk sk p stored)) = None ->
  DB.update now r pk sk w =
    (Returned tt,
     {| heap := <[fresh (dom (<[r := keyed pk sk p]> (heap w))) :=
                   updated now pk sk p stored]>
                  (<[r := keyed pk sk p]> (heap w));
        table := <[(DB.partition_key pk (id_of p), DB.filter_string sk) :=
                     updated now pk sk p stored]> (table w) |}).
Proof.
  intros Hp Hstored Hsafe.
  rewrite (update_reaches_put now r pk sk w p stored Hp Hstored).
  destruct (updated_keys now pk sk p stored) as [Hpk Hsk].
  by rewrite (PutCommand_run _ _ _ _ _ (lookup_insert_eq _ _ _) Hsafe Hpk Hsk).
Qed.

Lemma update_refused (now : string) (r : loc) (pk sk : DB.RESOURCE_FILTER)
    (w : World) (p stored : Obj) (n : Z) :
  heap w !! r = Some p ->
  table w !! (DB.partition_key pk (id_of p), DB.filter_string sk)
    = Some stored ->
  DB.unsafe_number (JObj (updated now pk sk p stored)) = Some n ->
  DB.update now r pk sk w =
    (Thrown (VError (DB.not_a_safe_integer n)),
     with_heap w
       (<[fresh (dom (<[r := keyed pk sk p]> (heap w))) :=
            updated now pk sk p stored]>
          (<[r := keyed pk sk p]> (heap w)))).
Proof.
  intros Hp Hstored Hunsafe.
  rewrite (update_reaches_put now r pk sk w p stored Hp Hstored).
  by rewrite (PutCommand_refuses _ _ _ n (lookup_insert_eq _ _ _) Hunsafe).
Qed.

Lemma update_missing (now : string) (r : loc) (pk sk : DB.RESOURCE_FILTER)
    (w : World) (p : Obj) :
  heap w !! r = Some p ->
  table w !! (DB.partition_key pk (id_of p), DB.filter_string sk) = None ->
  DB.update now r pk sk w =
    (Thrown (VStr "404"), with_heap w (<[r := keyed pk sk p]> (heap w))).
Proof.
  intros Hp Hnone.
  unfold DB.update. rewrite (update_prefix now r pk sk w p _ Hp).
  erewrite run_bind;
    [|rewrite get_run; cbn [table with_heap]; rewrite Hnone; reflexivity].
  reflexivity.
Qed.

(** C1.  When the caller's object [p] names a stored record, and both are
    objects that the document client stores, [update] succeeds and the
    record under the same key is a merge: an attribute of [p], other than
    [id], [createdOn] and the three the service writes itself, replaces
    the stored one; an attribute that only the stored record has is kept;
    [id] and [createdOn] are the stored ones.  The three attributes that
    every write sets are set by this one: [lastModifiedOn] is the time of
    the write, [PK] and [SK] are the key.  No other record changes. *)
Theorem update_merges_into_the_stored_record (now : string) (r : loc)
    (pk sk : DB.RESOURCE_FILTER) (w : World) (p stored : Obj) :
  heap w !! r = Some p ->
  table w !! (DB.partition_key pk (id_of p), DB.filter_string sk)
    = Some stored ->
  storable p ->
  storable stored ->
  exists w' rec,
    DB.update now r pk sk w = (Returned tt, w') /\
    table w' !! (DB.partition_key pk (id_of p), DB.filter_string sk)
      = Some rec /\
    (forall f v, p !! f = Some v -> business_field f -> rec !! f = Some v) /\
    (forall f, p !! f = None -> f ∉ ["lastModifiedOn"; "PK"; "SK"] ->
               rec !! f = stored !! f) /\
    rec !! "id" = stored !! "id" /\
    rec !! "createdOn" = stored !! "createdOn" /\
    rec !! "lastModifiedOn" = Some (JStr now) /\
    rec !! "PK" = Some (JStr (DB.partition_key pk (id_of p))) /\
    rec !! "SK" = Some (JStr (DB.filter_string sk)) /\
    (forall k, k <> (DB.partition_key pk (id_of p), DB.filter_string sk) ->
               table w' !! k = table w !! k).
Proof.
  intros Hp Hstored Hsp Hss. eexists _, _.
  pose proof (storable_no_proto p Hsp) as Hproto.
  rewrite (update_run now r pk sk w p stored Hp Hstored)
    by (apply safe_updated; by apply storable_safe).
  cbn [table].
  split; [reflexivity|]. split; [apply lookup_insert_eq|].
  unfold updated.
  assert (forall f, f <> "lastModifiedOn" -> f <> "PK" -> f <> "SK" ->
            <["lastModifiedOn" := JStr now]>
              (merge_props (map_to_list (keyed pk sk p))
                 (delete "PK" (delete "SK" stored))) !! f
            = if DB.immutable f then stored !! f
              else match p !! f with Some v => Some v | None => stored !! f end)
    as Hfield.
  { intros f H1 H2 H3. rewrite lookup_insert_ne by done.
    rewrite merged_lookup, keyed_other by done.
    by rewrite !lookup_delete_ne by done. }
  repeat apply conj.
  - intros f v Hf Hb. destruct (business_field_ne f Hb) as (? & ? & ? & ? & ?).
    rewrite Hfield by done.
    assert (DB.immutable f = false) as ->.
    { apply not_true_iff_false. rewrite immutable_spec.
      intros [-> | ->]; congruence. }
    by rewrite Hf.
  - intros f Hf Hb. rewrite !not_elem_of_cons in Hb.
    destruct Hb as (? & ? & ? & _). rewrite Hfield by done.
    rewrite Hf. by destruct (DB.immutable f).
  - by rewrite Hfield.
  - by rewrite Hfield.
  - apply lookup_insert_eq.
  - rewrite lookup_insert_ne by done. rewrite merged_lookup by done.
    by rewrite keyed_PK.
  - rewrite lookup_insert_ne by done. rewrite merged_lookup by done.
    by rewrite keyed_SK.
  - intros k Hk. cbn [table]. rewrite lookup_insert_ne by congruence.
    reflexivity.
Qed.

Lemma update_merges_into_the_stored_record_witness :
  heap Fixture.one_item !! 0%nat = Some Fixture.patch /\
  table Fixture.one_item !! ("ITEM#1", "ITEM") = Some Fixture.stored_item /\
  storable Fixture.patch /\
  storable Fixture.stored_item /\
  exists w' rec,
    DB.update "2025-02-02T00:00:00.000Z" 0%nat Fixture.ITEM Fixture.ITEM
      Fixture.one_item = (Returned tt, w') /\
    table w' !! ("ITEM#1", "ITEM") = Some rec /\
    (forall f v, Fixture.patch !! f = Some v -> business_field f ->
                 rec !! f = Some v) /\
    (forall f, Fixture.patch !! f = None ->
               f ∉ ["lastModifiedOn"; "PK"; "SK"] ->
               rec !! f = Fixture.stored_item !! f) /\
    rec !! "id" = Fixture.stored_item !! "id" /\
    rec !! "createdOn" = Fixture.stored_item !! "createdOn" /\
    rec !! "lastModifiedOn" = Some (JStr "2025-02-02T00:00:00.000Z") /\
    rec !! "PK" = Some (JStr "ITEM#1") /\
    rec !! "SK" = Some (JStr "ITEM") /\
    (forall k, k <> ("ITEM#1", "ITEM") ->
               table w' !! k = table Fixture.one_item !! k).
Proof.
  assert (storable Fixture.patch) as Hpatch
    by (split; vm_compute; reflexivity).
  assert (storable Fixture.stored_item) as Hstored
    by (split; vm_compute; reflexivity).
  split; [reflexivity|]. split; [reflexivity|].
  split; [exact Hpatch|]. split; [exact Hstored|].
  apply (update_merges_into_the_stored_record "2025-02-02T00:00:00.000Z"
           0%nat Fixture.ITEM Fixture.ITEM Fixture.one_item Fixture.patch
           Fixture.stored_item); [reflexivity|reflexivity|done|done].
Defined.

(** ** [list] *)

Section List_facts.
Variable send : DB.QueryInput -> Outcome DB.QueryOutput.
Variables sk pk : string.


End List_facts.

Lemma removeKeys_hides (items : list Obj) (record : Obj) :
  record ∈ DB.removeKeys items ->
  record !! "PK" = None /\ record !! "SK" = None.
Proof.
  unfold DB.removeKeys. rewrite list_elem_of_fmap. intros (item & -> & _).
  split.
  - apply lookup_delete_eq.
  - rewrite lookup_delete_ne by done. apply lookup_delete_eq.
Qed.

Lemma list_returned (send : DB.QueryInput -> Outcome DB.QueryOutput)
    (fuel : nat) (sk pk : DB.RESOURCE_FILTER) (records : list Obj) :
  DB.list send fuel sk pk = Some (Returned records) ->
  exists items, records = DB.removeKeys items.
Proof.
  unfold DB.list.
  destruct (send _) as [results|e]; [|discriminate].
  destruct (DB.Items results) as [first|]; [|discriminate].
  destruct (DB.load_pages _ _ _ _ _ _) as [[items|e]|]; [|discriminate..].
  intros [= <-]. by exists items.
Qed.



(** C5. A record that [list] or [get] hands to its caller has neither a
    [PK] nor an [SK] attribute. *)
Theorem returned_records_hide_the_keys (record : Obj) :
  exposed record -> record !! "PK" = None /\ record !! "SK" = None.
Proof.
  intros [send fuel sk pk records exposed_record Hlist Hin
         |id pk sk w w' exposed_record Hget].
  - apply list_returned in Hlist as [items ->].
    by apply (removeKeys_hides items).
  - rewrite get_run in Hget.
    destruct (table w !! _) as [item|]; [|discriminate].
    injection Hget as <- _. split.
    + apply lookup_delete_eq.
    + rewrite lookup_delete_ne by done. apply lookup_delete_eq.
Qed.

Lemma returned_records_hide_the_keys_witness :
  exposed (delete "PK" (delete "SK" Fixture.stored_item)) /\
  delete "PK" (delete "SK" Fixture.stored_item) !! "PK" = None /\
  delete "PK" (delete "SK" Fixture.stored_item) !! "SK" = None.
Proof.
  assert (exposed (delete "PK" (delete "SK" Fixture.stored_item))) as H.
  { apply (exposed_by_get (VStr "1") Fixture.ITEM Fixture.ITEM
             Fixture.one_item Fixture.one_item).
    reflexivity. }
  split; [exact H|].
  apply (returned_records_hide_the_keys _ H).
Defined.

(* ================================================================== *)
(** ** The route table *)
(* ================================================================== *)

Lemma nonempty_segments (b s : string) :
  Server.segments b (Some s) = filter (fun x => x <> EmptyString) [b; s].
Proof.
  unfold Server.segments.
  destruct b as [|cb b], s as [|cs s]; reflexivity.
Qed.

Lemma fullPath_starts_with_slash (b : string) (r : option string) :
  exists rest, Server.fullPath b r = String slash rest.
Proof. unfold Server.fullPath. by eexists. Qed.

Lemma leading_slashes_slash (rest : string) :
  leading_slashes (String slash rest) = S (leading_slashes rest).
Proof. cbn. by rewrite bool_decide_eq_true_2. Qed.

(** C7, as the code has it.  The full path is ["/"] followed by the
    ["/"]-join of the non-empty ones among base path and sub path; it
    begins with a slash, and with exactly one when the first non-empty
    segment (if there is one) does not itself begin with a slash. *)
Theorem fullPath_joins_the_segments (b s : string) :
  Server.fullPath b (Some s)
    = "/" +:+ join "/" (filter (fun x => x <> EmptyString) [b; s]) /\
  (1 <= leading_slashes (Server.fullPath b (Some s)))%nat /\
  (leading_slashes
     (default EmptyString (head (filter (fun x => x <> EmptyString) [b; s])))
     = 0%nat ->
   leading_slashes (Server.fullPath b (Some s)) = 1%nat).
Proof.
  unfold Server.fullPath. rewrite nonempty_segments.
  split; [reflexivity|].
  change ("/" +:+ ?x) with (String slash x).
  rewrite leading_slashes_slash. split; [lia|].
  destruct b as [|cb b], s as [|cs s].
  - change (filter _ [EmptyString; EmptyString]) with (@nil string). done.
  - change (filter _ [EmptyString; String cs s]) with [String cs s].
    cbn. destruct (bool_decide (cs = slash)); [discriminate|done].
  - change (filter _ [String cb b; EmptyString]) with [String cb b].
    cbn. destruct (bool_decide (cb = slash)); [discriminate|done].
  - change (filter _ [String cb b; String cs s])
      with [String cb b; String cs s].
    cbn.
    change (String cb b +:+ ?x) with (String cb (b +:+ x)).
    cbn [leading_slashes].
    destruct (bool_decide (cb = slash)); [discriminate|done].
Qed.

Lemma fullPath_joins_the_segments_witness :
  Server.fullPath "items" (Some ":id")
    = "/" +:+ join "/" (filter (fun x => x <> EmptyString) ["items"; ":id"]) /\
  (1 <= leading_slashes (Server.fullPath "items" (Some ":id")))%nat /\
  (leading_slashes
     (default EmptyString
        (head (filter (fun x => x <> EmptyString) ["items"; ":id"])))
     = 0%nat ->
   leading_slashes (Server.fullPath "items" (Some ":id")) = 1%nat).
Proof. apply (fullPath_joins_the_segments "items" ":id"). Defined.

(** C7 as stated fails for a base path written with its own slash:
    [@Controller('/items')] with [@Get(':id')] is registered under a path
    that begins with two slashes. *)
Lemma fullPath_with_two_leading_slashes :
  Server.fullPath "/items" (Some ":id") = "//items/:id" /\
  leading_slashes (Server.fullPath "/items" (Some ":id")) = 2%nat.
Proof. split; reflexivity. Qed.

(** ** Start-up *)

Lemma run_ABORTED (n : nat) (error : string) :
  Server.run n (Server.ABORTED error) = Server.ABORTED error.
Proof. induction n; [done|]. by cbn. Qed.

Lemma run_S (n : nat) (p : Server.Process) :
  Server.run (S n) p = Server.run n (Server.step p).
Proof. reflexivity. Qed.

Lemma register_label (i : nat) (base : string) (op : Operation)
    (routes : list string) (app : list Server.Route) :
  Server.register i base op routes app =
    match label_of (i, base, op) with
    | None => inr (routes, app)
    | Some label =>
        if bool_decide (label ∈ routes)
        then inl ("Duplicate Route: " +:+ label)
        else inr (routes ++ [label],
                  app ++ [Server.mkRoute
                            (default GET (method op))
                            (Server.fullPath base (route op)) i
                            (methodName op)])
    end.
Proof.
  unfold Server.register, label_of, resolved.
  destruct (method op) as [m|]; reflexivity.
Qed.

(** Once the labels seen so far and those still to come hold a repetition,
    the start-up ends in [ABORTED] on a label that occurs twice, and no
    number of steps takes it to [LISTENING]. *)
Lemma start_up_with_repetition (pending : list (nat * string * Operation)) :
  forall (routes : list string) (app : list Server.Route),
    NoDup routes ->
    ~ NoDup (routes ++ labels pending) ->
    exists n label,
      Server.run n (Server.STARTING pending routes app)
        = Server.ABORTED ("Duplicate Route: " +:+ label) /\
      (exists l1 l2 l3,
          routes ++ labels pending = l1 ++ label :: l2 ++ label :: l3) /\
      forall k a,
        Server.run k (Server.STARTING pending routes app)
          <> Server.LISTENING a.
Proof.
  induction pending as [|[[i base] op] pending IH]; intros routes app Hnd Hdup.
  - cbn in Hdup. rewrite app_nil_r in Hdup. contradiction.
  - unfold labels in *. cbn [omap list_omap] in *. fold (omap label_of pending) in *.
    pose proof (register_label i base op routes app) as Hreg.
    destruct (label_of (i, base, op)) as [label|].
    + destruct (decide (label ∈ routes)) as [Hin|Hnotin].
      * rewrite bool_decide_eq_true_2 in Hreg by done.
        exists 1%nat, label. cbn [Server.run Server.step]. rewrite Hreg.
        split; [reflexivity|]. split.
        -- apply list_elem_of_split in Hin as (l1 & l2 & ->).
           exists l1, l2, (omap label_of pending).
           by rewrite <- app_assoc.
        -- intros [|k] a; [discriminate|].
           rewrite run_S. cbn [Server.step]. rewrite Hreg, run_ABORTED.
           discriminate.
      * rewrite bool_decide_eq_false_2 in Hreg by done.
        destruct (IH (routes ++ [label])
                     (app ++ [Server.mkRoute (default GET (method op))
                                (Server.fullPath base (route op)) i
                                (methodName op)]))
          as (n & label' & Hrun & Htwice & Hnever).
        { apply NoDup_app. repeat split; [done| |apply NoDup_singleton].
          intros x Hx ->%list_elem_of_singleton. contradiction. }
        { by rewrite <- app_assoc. }
        exists (S n), label'. rewrite run_S. cbn [Server.step]. rewrite Hreg.
        split; [exact Hrun|]. split.
        -- destruct Htwice as (l1 & l2 & l3 & Heq).
           exists l1, l2, l3. rewrite <- Heq. by rewrite <- app_assoc.
        -- intros [|k] a; [discriminate|].
           rewrite run_S. cbn [Server.step]. rewrite Hreg. apply Hnever.
    + destruct (IH routes app Hnd Hdup) as (n & label' & Hrun & Htwice & Hnever).
      exists (S n), label'. rewrite run_S. cbn [Server.step]. rewrite Hreg.
      split; [exact Hrun|]. split; [exact Htwice|].
      intros [|k] a; [discriminate|].
      rewrite run_S. cbn [Server.step]. rewrite Hreg. apply Hnever.
Qed.

(** The label of a route tells its verb and its path. *)
Lemma route_label_inj (m1 m2 : HttpMethod) (p1 p2 : string) :
  Server.route_label m1 p1 = Server.route_label m2 p2 -> m1 = m2 /\ p1 = p2.
Proof.
  intros H. destruct m1, m2; vm_compute in H; simplify_eq; done.
Qed.

Lemma labels_of_resolved (entries : list (nat * string * Operation)) :
  labels entries
    = (fun r : HttpMethod * string => Server.route_label r.1 r.2)
        <$> omap resolved entries.
Proof.
  unfold labels. induction entries as [|entry entries IH]; [done|].
  cbn [omap list_omap]. fold (omap label_of entries).
  fold (omap resolved entries). unfold label_of at 1.
  destruct (resolved entry); cbn; by rewrite IH.
Qed.

(** A label that occurs twice is the label of a (verb, path) pair that
    occurs twice. *)
Lemma repeated_label (entries : list (nat * string * Operation))
    (label : string) (l1 l2 l3 : list string) :
  labels entries = l1 ++ label :: l2 ++ label :: l3 ->
  exists m full r1 r2 r3,
    label = "[" +:+ Server.toUpperCase m +:+ "] " +:+ full /\
    omap resolved entries = r1 ++ (m, full) :: r2 ++ (m, full) :: r3.
Proof.
  rewrite labels_of_resolved. intros Heq.
  apply fmap_app_inv in Heq as (r1 & rest & _ & Hrest & ->).
  symmetry in Hrest.
  apply fmap_cons_inv in Hrest as ([m full] & rest' & Hlabel & Hrest' & ->).
  symmetry in Hrest'.
  apply fmap_app_inv in Hrest' as (r2 & rest'' & _ & Hrest'' & ->).
  symmetry in Hrest''.
  apply fmap_cons_inv in Hrest'' as ([m' full'] & r3 & Hlabel' & _ & ->).
  cbn [fst snd] in Hlabel, Hlabel'.
  destruct (route_label_inj m m' full full') as [-> ->]; [congruence|].
  exists m', full', r1, r2, r3. split; [exact Hlabel|reflexivity].
Qed.

(** C6. When two of the operations visited at start-up resolve to the same
    verb and full path, the start-up ends in [ABORTED] with the message
    ["Duplicate Route: [VERB] path"], the verb (in upper case) and the path
    being those of a route that two of the operations resolve to, and the
    process is never [LISTENING]. *)
Theorem duplicate_route_aborts_the_start_up
    (controllers : list ControllerClass)
    (before between after : list (nat * string * Operation))
    (first second : nat * string * Operation)
    (httpMethod : HttpMethod) (full : string) :
  Server.visit_order controllers
    = before ++ first :: between ++ second :: after ->
  resolved first = Some (httpMethod, full) ->
  resolved second = Some (httpMethod, full) ->
  exists n m clash,
    Server.run n (Server.boot controllers)
      = Server.ABORTED
          ("Duplicate Route: "
             +:+ ("[" +:+ Server.toUpperCase m +:+ "] " +:+ clash)) /\
    (exists r1 r2 r3,
        omap resolved (Server.visit_order controllers)
          = r1 ++ (m, clash) :: r2 ++ (m, clash) :: r3) /\
    forall k app, Server.run k (Server.boot controllers) <> Server.LISTENING app.
Proof.
  intros Horder Hfirst Hsecond. unfold Server.boot.
  destruct (start_up_with_repetition (Server.visit_order controllers) [] [])
    as (n & label & Hrun & (l1 & l2 & l3 & Htwice) & Hnever).
  - apply NoDup_nil_2.
  - cbn [app]. rewrite Horder. unfold labels.
    rewrite omap_app. cbn [omap list_omap]. fold (omap label_of (between ++ second :: after)).
    rewrite omap_app. cbn [omap list_omap].
    unfold label_of at 2 4. rewrite Hfirst, Hsecond. cbn [fmap option_fmap option_map fst snd].
    intros Hnd. apply NoDup_app in Hnd as (_ & _ & Hnd).
    apply NoDup_cons in Hnd as [Hnotin _]. apply Hnotin.
    apply elem_of_app. right. apply elem_of_cons. by left.
  - cbn [app] in Htwice.
    destruct (repeated_label _ label l1 l2 l3 Htwice)
      as (m & clash & r1 & r2 & r3 & -> & Hpairs).
    exists n, m, clash. split; [exact Hrun|].
    split; [by exists r1, r2, r3|exact Hnever].
Qed.

Lemma duplicate_route_aborts_the_start_up_witness :
  Server.visit_order
    (Controller "items" [Get ":id" "handler"]
       (Controller "items" [Get ":id" "find"] []))
    = [] ++ (0%nat, "items", Get ":id" "find")
         :: [] ++ (1%nat, "items", Get ":id" "handler") :: [] /\
  resolved (0%nat, "items", Get ":id" "find") = Some (GET, "/items/:id") /\
  resolved (1%nat, "items", Get ":id" "handler") = Some (GET, "/items/:id") /\
  exists n m clash,
    Server.run n
      (Server.boot (Controller "items" [Get ":id" "handler"]
                      (Controller "items" [Get ":id" "find"] [])))
      = Server.ABORTED
          ("Duplicate Route: "
             +:+ ("[" +:+ Server.toUpperCase m +:+ "] " +:+ clash)) /\
    (exists r1 r2 r3,
        omap resolved
          (Server.visit_order
             (Controller "items" [Get ":id" "handler"]
                (Controller "items" [Get ":id" "find"] [])))
          = r1 ++ (m, clash) :: r2 ++ (m, clash) :: r3) /\
    forall k app,
      Server.run k
        (Server.boot (Controller "items" [Get ":id" "handler"]
                        (Controller "items" [Get ":id" "find"] [])))
        <> Server.LISTENING app.
Proof.
  split; [reflexivity|]. split; [reflexivity|]. split; [reflexivity|].
  apply (duplicate_route_aborts_the_start_up
           (Controller "items" [Get ":id" "handler"]
              (Controller "items" [Get ":id" "find"] []))
           [] [] [] (0%nat, "items", Get ":id" "find")
           (1%nat, "items", Get ":id" "handler") GET "/items/:id");
    reflexivity.
Defined.

(** Two controllers that both declare [GET items/:id]: the second
    registration ends the start-up, and the message names the route. *)
Example two_controllers_on_one_route_abort :
  Server.run 2
    (Server.boot (Controller "items" [Get ":id" "handler"]
                    (Controller "items" [Get ":id" "find"] [])))
    = Server.ABORTED "Duplicate Route: [GET] /items/:id".
Proof. reflexivity. Qed.

(** The repository's own controllers clash nowhere: after the five
    registrations the process listens with five routes. *)
Example items_controllers_listen :
  Server.run 6 (Server.boot items_controllers) =
    Server.LISTENING
      [ Server.mkRoute GET "/items" 0 "handler";
        Server.mkRoute POST "/items" 1 "handler";
        Server.mkRoute PUT "/items/:id" 2 "handler";
        Server.mkRoute GET "/items/:id" 3 "handler";
        Server.mkRoute DELETE "/items/:id" 4 "handler" ].
Proof. reflexivity. Qed.

(* ================================================================== *)
(** ** The item controllers behind the dispatcher *)
(* ================================================================== *)

Section Controller_facts.
Variable JSON_text : Json -> string.
Variable JSON_parse : string -> Json + string.

Lemma on_error_string (s : string) (w : World) :
  on_error JSON_text (VStr s) w
    = (Returned (mkResponse 500 allow_all None), w).
Proof. reflexivity. Qed.

Lemma get_handler_run (request : IRequest) (w : World) :
  ItemsGetController_handler JSON_text request w =
    (Returned
       (mkResponse 200 allow_all
          (match table w !! item_key (pathParameters_id request) with
           | Some item => Some (JSON_text (JObj (delete "PK" (delete "SK" item))))
           | None => None
           end)), w).
Proof.
  unfold ItemsGetController_handler, try_catch, item_key, Fixture.ITEM.
  erewrite run_bind; [|apply get_run].
  destruct (table w !! _); reflexivity.
Qed.

Lemma write_result_without_body (code : Z) (h : gmap string string) :
  status_error JSON_text (or_else (VData (JNum code)) (VData (JNum 200)))
    = None ->
  write_result JSON_text JSON_parse (response_value (mkResponse code h None))
    = inl {| status := or_else (VData (JNum code)) (VData (JNum 200));
             sent := JObj ∅ |}.
Proof.
  intros Hstatus.
  unfold write_result, response_value, get_property. cbn [body statusCode headers].
  rewrite (lookup_insert_ne _ "statusCode" "body") by done.
  rewrite lookup_singleton_ne by done.
  rewrite lookup_insert_eq. by rewrite Hstatus.
Qed.

Lemma write_result_with_body (code : Z) (h : gmap string string) (s : string) :
  write_result JSON_text JSON_parse (response_value (mkResponse code h (Some s))) =
    match JSON_parse s with
    | inl j =>
        match status_error JSON_text
                (or_else (VData (JNum code)) (VData (JNum 200))) with
        | Some range_error => inr range_error
        | None =>
            inl {| status := or_else (VData (JNum code)) (VData (JNum 200));
                   sent := json_sent (or_else (VData j) (VData (JObj ∅))) |}
        end
    | inr syntax_error => inr (VError syntax_error)
    end.
Proof.
  unfold write_result, response_value, get_property.
  cbn [body statusCode headers].
  rewrite lookup_insert_eq.
  rewrite (lookup_insert_ne _ "body" "statusCode") by done.
  rewrite lookup_insert_eq.
  destruct (JSON_parse s); reflexivity.
Qed.
End Controller_facts.

(** C9: where the code ends up.  [GET /items/:id] for an id that names no
    stored record: [DynamoDbService.get] returns [undefined], the handler
    wraps it in a response with status 200 and no body, and the dispatcher
    writes status 200 with the empty object.  Nothing tells the client
    that the item is absent. *)
Theorem get_of_a_missing_id_answers_200 (JSON_text : Json -> string)
    (JSON_parse : string -> Json + string) (req : ExpressRequest) (w : World) :
  table w !! item_key (pathParameters_id (invocation_request JSON_text req))
    = None ->
  DB.get (pathParameters_id (invocation_request JSON_text req))
    Fixture.ITEM Fixture.ITEM w = (Returned None, w) /\
  ItemsGetController_handler JSON_text (invocation_request JSON_text req) w
    = (Returned (mkResponse 200 allow_all None), w) /\
  route_callback JSON_text JSON_parse
    (invoke (ItemsGetController_handler JSON_text)) req w
    = (Responded {| status := VData (JNum 200); sent := JObj ∅ |}, w).
Proof.
  intros Hnone.
  assert (ItemsGetController_handler JSON_text
            (invocation_request JSON_text req) w
          = (Returned (mkResponse 200 allow_all None), w)) as Hhandler.
  { rewrite get_handler_run. by rewrite Hnone. }
  split; [|split; [exact Hhandler|]].
  - rewrite get_run. unfold item_key in Hnone. by rewrite Hnone.
  - unfold route_callback, invoke.
    erewrite run_bind; [|exact Hhandler].
    unfold mret, async_ret.
    by rewrite write_result_without_body by reflexivity.
Qed.

Lemma get_of_a_missing_id_answers_200_witness :
  table Fixture.one_item
    !! item_key (pathParameters_id
                   (invocation_request Fixture.compact_json
                      (mkExpressRequest VUndefined {[ "id" := "7" ]})))
    = None /\
  DB.get (pathParameters_id
            (invocation_request Fixture.compact_json
               (mkExpressRequest VUndefined {[ "id" := "7" ]})))
    Fixture.ITEM Fixture.ITEM Fixture.one_item
    = (Returned None, Fixture.one_item) /\
  ItemsGetController_handler Fixture.compact_json
    (invocation_request Fixture.compact_json
       (mkExpressRequest VUndefined {[ "id" := "7" ]})) Fixture.one_item
    = (Returned (mkResponse 200 allow_all None), Fixture.one_item) /\
  route_callback Fixture.compact_json (Fixture.parse_known [])
    (invoke (ItemsGetController_handler Fixture.compact_json))
    (mkExpressRequest VUndefined {[ "id" := "7" ]}) Fixture.one_item
    = (Responded {| status := VData (JNum 200); sent := JObj ∅ |},
       Fixture.one_item).
Proof.
  split; [reflexivity|].
  apply (get_of_a_missing_id_answers_200 Fixture.compact_json
           (Fixture.parse_known [])
           (mkExpressRequest VUndefined {[ "id" := "7" ]}) Fixture.one_item).
  reflexivity.
Defined.

(** C2: where the code ends up.  [PUT /items/:id] with a body [p] whose id
    names no stored record: the service throws the string ['404'], the
    handler reads [message] off that string and returns status 500 with no
    body, and the dispatcher writes status 500 with the empty object.  The
    table is left as it was. *)
Theorem update_of_a_missing_id_answers_500 (JSON_text : Json -> string)
    (JSON_parse : string -> Json + string) (now : string)
    (params : gmap string string) (p : Obj) (w : World) :
  JSON_parse (JSON_text (JObj p)) = inl (JObj p) ->
  table w !! item_key (id_of p) = None ->
  exists resource w',
    heap w !! resource = None /\
    DB.update now resource Fixture.ITEM Fixture.ITEM
      (with_heap w (<[resource := p]> (heap w))) = (Thrown (VStr "404"), w') /\
    ItemsUpdateController_handler JSON_text JSON_parse now
      (invocation_request JSON_text (mkExpressRequest (VData (JObj p)) params)) w
      = (Returned (mkResponse 500 allow_all None), w') /\
    route_callback JSON_text JSON_parse
      (invoke (ItemsUpdateController_handler JSON_text JSON_parse now))
      (mkExpressRequest (VData (JObj p)) params) w
      = (Responded {| status := VData (JNum 500); sent := JObj ∅ |}, w') /\
    table w' = table w.
Proof.
  intros Hparse Hnone.
  set (resource := fresh (dom (heap w))).
  set (w1 := with_heap w (<[resource := p]> (heap w))).
  assert (heap w !! resource = None) as Hfresh
    by apply not_elem_of_dom, is_fresh.
  assert (DB.update now resource Fixture.ITEM Fixture.ITEM w1
          = (Thrown (VStr "404"),
             with_heap w1 (<[resource := keyed Fixture.ITEM Fixture.ITEM p]>
                             (heap w1)))) as Hupdate.
  { apply update_missing; [apply lookup_insert_eq|exact Hnone]. }
  assert (ItemsUpdateController_handler JSON_text JSON_parse now
            (invocation_request JSON_text
               (mkExpressRequest (VData (JObj p)) params)) w
          = (Returned (mkResponse 500 allow_all None),
             with_heap w1 (<[resource := keyed Fixture.ITEM Fixture.ITEM p]>
                             (heap w1)))) as Hhandler.
  { unfold ItemsUpdateController_handler, try_catch, invocation_request.
    cbn [req_body truthy typeof_object andb JSON_stringify request_body
         ToString json_to_string VStr].
    rewrite Hparse.
    erewrite run_bind; [|reflexivity].
    fold resource. fold w1.
    erewrite run_bind_thrown; [|exact Hupdate].
    apply on_error_string. }
  eexists resource, _. split; [exact Hfresh|]. split; [exact Hupdate|].
  split; [exact Hhandler|]. split; [|reflexivity].
  unfold route_callback, invoke.
  erewrite run_bind; [|exact Hhandler].
  unfold mret, async_ret. by rewrite write_result_without_body by reflexivity.
Qed.

Lemma update_of_a_missing_id_answers_500_witness :
  Fixture.parse_known [JObj Fixture.patch]
    (Fixture.compact_json (JObj Fixture.patch)) = inl (JObj Fixture.patch) /\
  table Fixture.nothing !! item_key (id_of Fixture.patch) = None /\
  exists resource w',
    heap Fixture.nothing !! resource = None /\
    DB.update "2025-02-02T00:00:00.000Z" resource Fixture.ITEM Fixture.ITEM
      (with_heap Fixture.nothing
         (<[resource := Fixture.patch]> (heap Fixture.nothing)))
      = (Thrown (VStr "404"), w') /\
    ItemsUpdateController_handler Fixture.compact_json
      (Fixture.parse_known [JObj Fixture.patch]) "2025-02-02T00:00:00.000Z"
      (invocation_request Fixture.compact_json
         (mkExpressRequest (VData (JObj Fixture.patch)) {[ "id" := "1" ]}))
      Fixture.nothing
      = (Returned (mkResponse 500 allow_all None), w') /\
    route_callback Fixture.compact_json
      (Fixture.parse_known [JObj Fixture.patch])
      (invoke (ItemsUpdateController_handler Fixture.compact_json
                 (Fixture.parse_known [JObj Fixture.patch])
                 "2025-02-02T00:00:00.000Z"))
      (mkExpressRequest (VData (JObj Fixture.patch)) {[ "id" := "1" ]})
      Fixture.nothing
      = (Responded {| status := VData (JNum 500); sent := JObj ∅ |}, w') /\
    table w' = table Fixture.nothing.
Proof.
  assert (Fixture.parse_known [JObj Fixture.patch]
            (Fixture.compact_json (JObj Fixture.patch))
          = inl (JObj Fixture.patch)) as Hparse by (vm_compute; reflexivity).
  split; [exact Hparse|]. split; [reflexivity|].
  apply (update_of_a_missing_id_answers_500 Fixture.compact_json
           (Fixture.parse_known [JObj Fixture.patch])
           "2025-02-02T00:00:00.000Z" {[ "id" := "1" ]} Fixture.patch
           Fixture.nothing Hparse).
  reflexivity.
Defined.

(** C8: where the code ends up.  The [catch] of the route callback answers
    with status 500 and reads [message] off whatever was thrown.  An
    [Error] gives the body [{ error: message }], and so does an object that
    has a [message]; a thrown string (or number, boolean, array) has no
    [message], so the body is the empty object and the thrown value is
    lost; on [null] and [undefined] the [catch] block throws itself, so
    that nothing is written and the callback ends in an unhandled
    rejection. *)
Theorem dispatcher_catch_all (JSON_text : Json -> string)
    (JSON_parse : string -> Json + string) (req : ExpressRequest) (w : World)
    (e : JsVal) :
  route_callback JSON_text JSON_parse (fun _ => throw e) req w =
    (match e with
     | VUndefined => Escaped (VError (cannot_read "undefined" "message"))
     | VData JNull => Escaped (VError (cannot_read "null" "message"))
     | VError m =>
         Responded {| status := VData (JNum 500);
                      sent := JObj {[ "error" := JStr m ]} |}
     | VData (JObj props) =>
         Responded {| status := VData (JNum 500);
                      sent := match props !! "message" with
                              | Some m => JObj {[ "error" := m ]}
                              | None => JObj ∅
                              end |}
     | VData _ =>
         Responded {| status := VData (JNum 500); sent := JObj ∅ |}
     end, w).
Proof.
  unfold route_callback, throw, write_error.
  destruct e as [|[| | | | |props]|m]; try reflexivity.
  cbn [get_property]. by destruct (props !! "message").
Qed.

(** The string ['404'] that [update] throws, had it reached the dispatcher:
    status 500, empty object. *)
Example thrown_404_reaches_the_client_as_an_empty_500
    (JSON_text : Json -> string) (JSON_parse : string -> Json + string)
    (req : ExpressRequest) (w : World) :
  route_callback JSON_text JSON_parse (fun _ => throw (VStr "404")) req w
    = (Responded {| status := VData (JNum 500); sent := JObj ∅ |}, w).
Proof. reflexivity. Qed.

(* ================================================================== *)
(** * Further properties of the service *)
(* ================================================================== *)

Lemma world_eta (w : World) : {| heap := heap w; table := table w |} = w.
Proof. by destruct w. Qed.

Lemma delete_run (id : JsVal) (pk sk : DB.RESOURCE_FILTER) (w : World) :
  DB.delete id pk sk w =
    (Returned tt,
     with_table w (delete (DB.partition_key pk id, DB.filter_string sk)
                          (table w))).
Proof. reflexivity. Qed.

(** X1. [delete] never fails and removes exactly one key: afterwards [get]
    on the same id finds nothing, every other record and the heap are as
    before, a missing record leaves the world as it was, and a second
    [delete] changes nothing more. *)
Theorem delete_removes_one_key_and_is_idempotent (id : JsVal)
    (pk sk : DB.RESOURCE_FILTER) (w : World) :
  exists w',
    DB.delete id pk sk w = (Returned tt, w') /\
    DB.get id pk sk w' = (Returned None, w') /\
    heap w' = heap w /\
    (forall k, k <> (DB.partition_key pk id, DB.filter_string sk) ->
               table w' !! k = table w !! k) /\
    (table w !! (DB.partition_key pk id, DB.filter_string sk) = None ->
     w' = w) /\
    DB.delete id pk sk w' = (Returned tt, w').
Proof.
  eexists. split; [apply delete_run|].
  repeat apply conj.
  - rewrite get_run. cbn [table with_table]. by rewrite lookup_delete_eq.
  - reflexivity.
  - intros k Hk. cbn [table with_table].
    rewrite lookup_delete_ne by congruence. reflexivity.
  - intros Hnone. unfold with_table. rewrite delete_id by done.
    apply world_eta.
  - rewrite delete_run. unfold with_table. cbn [heap table].
    by rewrite delete_delete_eq.
Qed.

(** X2. For an object that the document client stores, [create] does not
    fail, whatever the table holds: it returns the uuid, the record under
    the new key is a copy of the caller's object (replacing, without
    notice, a record that was stored under that key), and every other
    record and every other object are untouched. *)
Theorem create_writes_one_record_and_never_fails (v4 now now' : string)
    (r : loc) (pk sk : DB.RESOURCE_FILTER) (w : World) (e : Obj) :
  heap w !! r = Some e ->
  storable e ->
  exists w',
    DB.create v4 now now' r pk sk w = (Returned (VStr v4), w') /\
    table w' !! (DB.filter_string pk +:+ "#" +:+ v4, DB.filter_string sk)
      = heap w' !! r /\
    is_Some (heap w' !! r) /\
    (forall k, k <> (DB.filter_string pk +:+ "#" +:+ v4, DB.filter_string sk) ->
               table w' !! k = table w !! k) /\
    (forall r', r' <> r -> heap w' !! r' = heap w !! r').
Proof.
  intros He [Hsafe _]. eexists. split.
  { apply create_run. rewrite (obj_at_heap _ _ _ He). by apply safe_created. }
  cbn [heap table].
  repeat apply conj.
  - change (DB.filter_string pk +:+ "#" +:+ v4)
      with (DB.partition_key pk (VStr v4)).
    by rewrite !lookup_insert_eq.
  - rewrite lookup_insert_eq. by eexists.
  - intros k Hk. rewrite lookup_insert_ne; [done|].
    intros Heq. apply Hk. by rewrite <- Heq.
  - intros r' Hr'. rewrite lookup_insert_ne by congruence. reflexivity.
Qed.

Lemma create_writes_one_record_and_never_fails_witness :
  heap Fixture.before_create !! 0%nat = Some Fixture.new_item /\
  storable Fixture.new_item /\
  exists w',
    DB.create "6f1c" "t0" "t1" 0%nat Fixture.ITEM Fixture.ITEM
      Fixture.before_create = (Returned (VStr "6f1c"), w') /\
    table w' !! ("ITEM" +:+ "#" +:+ "6f1c", "ITEM") = heap w' !! 0%nat /\
    is_Some (heap w' !! 0%nat) /\
    (forall k, k <> ("ITEM" +:+ "#" +:+ "6f1c", "ITEM") ->
               table w' !! k = table Fixture.before_create !! k) /\
    (forall r', r' <> 0%nat ->
                heap w' !! r' = heap Fixture.before_create !! r').
Proof.
  assert (storable Fixture.new_item) as Hstorable
    by (split; vm_compute; reflexivity).
  split; [reflexivity|]. split; [exact Hstorable|].
  apply (create_writes_one_record_and_never_fails "6f1c" "t0" "t1" 0%nat
           Fixture.ITEM Fixture.ITEM Fixture.before_create Fixture.new_item
           eq_refl Hstorable).
Defined.

(** X3. Creating a record from an object that the document client stores
    and deleting it by the id [create] returned brings the table back to
    what it was, when no record was stored under the new key; [get] on
    that id then finds nothing. *)
Theorem create_then_delete_restores_the_table (v4 now now' : string)
    (r : loc) (pk sk : DB.RESOURCE_FILTER) (w : World) (e : Obj) :
  heap w !! r = Some e ->
  storable e ->
  table w !! (DB.filter_string pk +:+ "#" +:+ v4, DB.filter_string sk) = None ->
  exists id w1 w2,
    DB.create v4 now now' r pk sk w = (Returned id, w1) /\
    DB.delete id pk sk w1 = (Returned tt, w2) /\
    table w2 = table w /\
    DB.get id pk sk w2 = (Returned None, w2).
Proof.
  intros He [Hsafe _] Hfree. eexists _, _, _.
  split.
  { apply create_run. rewrite (obj_at_heap _ _ _ He). by apply safe_created. }
  split; [apply delete_run|].
  cbn [table with_table heap].
  change (DB.partition_key pk (VStr v4))
    with (DB.filter_string pk +:+ "#" +:+ v4).
  split.
  - by apply delete_insert_id.
  - rewrite get_run. cbn [table with_table].
    change (DB.partition_key pk (VStr v4))
      with (DB.filter_string pk +:+ "#" +:+ v4).
    by rewrite lookup_delete_eq.
Qed.

Lemma create_then_delete_restores_the_table_witness :
  heap Fixture.before_create !! 0%nat = Some Fixture.new_item /\
  storable Fixture.new_item /\
  table Fixture.before_create !! ("ITEM" +:+ "#" +:+ "6f1c", "ITEM") = None /\
  exists id w1 w2,
    DB.create "6f1c" "t0" "t1" 0%nat Fixture.ITEM Fixture.ITEM
      Fixture.before_create = (Returned id, w1) /\
    DB.delete id Fixture.ITEM Fixture.ITEM w1 = (Returned tt, w2) /\
    table w2 = table Fixture.before_create /\
    DB.get id Fixture.ITEM Fixture.ITEM w2 = (Returned None, w2).
Proof.
  assert (storable Fixture.new_item) as Hstorable
    by (split; vm_compute; reflexivity).
  split; [reflexivity|]. split; [exact Hstorable|]. split; [reflexivity|].
  apply (create_then_delete_restores_the_table "6f1c" "t0" "t1" 0%nat
           Fixture.ITEM Fixture.ITEM Fixture.before_create Fixture.new_item
           eq_refl Hstorable).
  reflexivity.
Defined.

Lemma fresh_is_new (h : gmap nat Obj) (r : nat) :
  is_Some (h !! r) -> r <> fresh (dom h).
Proof.
  intros [o Ho] Heq.
  assert (h !! fresh (dom h) = None) as Hnone
    by apply not_elem_of_dom, is_fresh.
  rewrite <- Heq in Hnone. congruence.
Qed.

(** X4. [update] writes on the caller's object too: however the call
    ends, the object comes back with [PK] and [SK] set to the key that was
    looked up and is otherwise as it was.  When no record is stored under
    that key the call throws ['404'] and the table is as before; when one
    is, and the document client stores both it and the caller's object,
    the call returns; and whenever the call does not return, the table is
    as before. *)
Theorem update_sets_the_keys_on_the_caller_object (now : string) (r : loc)
    (pk sk : DB.RESOURCE_FILTER) (w : World) (p : Obj) :
  heap w !! r = Some p ->
  exists out w',
    DB.update now r pk sk w = (out, w') /\
    heap w' !! r
      = Some (<["SK" := JStr (DB.filter_string sk)]>
                (<["PK" := JStr (DB.partition_key pk (id_of p))]> p)) /\
    (table w !! (DB.partition_key pk (id_of p), DB.filter_string sk) = None ->
     out = Thrown (VStr "404")) /\
    (forall stored,
        table w !! (DB.partition_key pk (id_of p), DB.filter_string sk)
          = Some stored ->
        storable p -> storable stored -> out = Returned tt) /\
    (out <> Returned tt -> table w' = table w).
Proof.
  intros Hp.
  destruct (table w !! (DB.partition_key pk (id_of p), DB.filter_string sk))
    as [stored|] eqn:Hstored.
  - destruct (DB.unsafe_number (JObj (updated now pk sk p stored)))
      as [n|] eqn:Hsafe.
    + eexists _, _.
      split; [apply (update_refused now r pk sk w p stored n Hp Hstored Hsafe)|].
      cbn [heap table with_heap]. repeat apply conj.
      * rewrite lookup_insert_ne; [apply lookup_insert_eq|].
        apply not_eq_sym, fresh_is_new. rewrite lookup_insert_eq. by eexists.
      * discriminate.
      * intros stored' [= <-] [Hsp _] [Hss _].
        rewrite (safe_updated now pk sk p stored Hsp Hss) in Hsafe.
        discriminate.
      * reflexivity.
    + eexists _, _.
      split; [apply (update_run now r pk sk w p stored Hp Hstored Hsafe)|].
      cbn [heap table]. repeat apply conj.
      * rewrite lookup_insert_ne; [apply lookup_insert_eq|].
        apply not_eq_sym, fresh_is_new. rewrite lookup_insert_eq. by eexists.
      * discriminate.
      * reflexivity.
      * intros H. by contradict H.
  - eexists _, _. split; [apply (update_missing now r pk sk w p Hp Hstored)|].
    cbn [heap table with_heap]. repeat apply conj.
    + apply lookup_insert_eq.
    + done.
    + intros stored. discriminate.
    + reflexivity.
Qed.

Lemma update_sets_the_keys_on_the_caller_object_witness :
  heap Fixture.one_item !! 0%nat = Some Fixture.patch /\
  exists out w',
    DB.update "t2" 0%nat Fixture.ITEM Fixture.ITEM Fixture.one_item
      = (out, w') /\
    heap w' !! 0%nat
      = Some (<["SK" := JStr "ITEM"]>
                (<["PK" := JStr "ITEM#1"]> Fixture.patch)) /\
    (table Fixture.one_item !! ("ITEM#1", "ITEM") = None ->
     out = Thrown (VStr "404")) /\
    (forall stored,
        table Fixture.one_item !! ("ITEM#1", "ITEM") = Some stored ->
        storable Fixture.patch -> storable stored -> out = Returned tt) /\
    (out <> Returned tt -> table w' = table Fixture.one_item).
Proof.
  split; [reflexivity|].
  apply (update_sets_the_keys_on_the_caller_object "t2" 0%nat Fixture.ITEM
           Fixture.ITEM Fixture.one_item Fixture.patch).
  reflexivity.
Defined.

Lemma id_of_keyed (pk sk : DB.RESOURCE_FILTER) (p : Obj) :
  id_of (keyed pk sk p) = id_of p.
Proof. unfold id_of. by rewrite keyed_other. Qed.

Lemma keyed_lookup (pk sk : DB.RESOURCE_FILTER) (p : Obj) (f : string) :
  keyed pk sk (keyed pk sk p) !! f = keyed pk sk p !! f.
Proof.
  destruct (decide (f = "PK")) as [->|Hpk].
  { by rewrite !keyed_PK, id_of_keyed. }
  destruct (decide (f = "SK")) as [->|Hsk].
  { by rewrite !keyed_SK. }
  by rewrite (keyed_other pk sk (keyed pk sk p)).
Qed.

Lemma updated_again (now now' : string) (pk sk : DB.RESOURCE_FILTER)
    (p stored : Obj) :
  updated now' pk sk (keyed pk sk p) (updated now pk sk p stored)
    = updated now' pk sk p stored.
Proof.
  apply map_eq. intros f. unfold updated at 1 3.
  destruct (decide (f = "lastModifiedOn")) as [->|Hlm].
  { by rewrite !lookup_insert_eq. }
  rewrite !(lookup_insert_ne _ "lastModifiedOn" f) by done.
  rewrite !merged_skipped, keyed_lookup.
  assert (delete "PK" (delete "SK" (updated now pk sk p stored)) !! f
          = if skipped f then delete "PK" (delete "SK" stored) !! f
            else match keyed pk sk p !! f with
                 | Some v => delete "PK" (delete "SK" (keyed pk sk p)) !! f
                 | None => delete "PK" (delete "SK" stored) !! f
                 end) as Hinner.
  { destruct (decide (f = "PK")) as [->|Hpk].
    { rewrite !lookup_delete_eq. rewrite keyed_PK.
      by replace (skipped "PK") with false by reflexivity. }
    destruct (decide (f = "SK")) as [->|Hsk].
    { rewrite !(lookup_delete_ne _ "PK" "SK") by done.
      rewrite !lookup_delete_eq, keyed_SK.
      by replace (skipped "SK") with false by reflexivity. }
    rewrite !(lookup_delete_ne _ "PK" f), !(lookup_delete_ne _ "SK" f) by done.
    unfold updated. rewrite lookup_insert_ne by done.
    rewrite merged_skipped.
    rewrite !(lookup_delete_ne _ "PK" f), !(lookup_delete_ne _ "SK" f) by done.
    destruct (skipped f); [done|]. by destruct (keyed pk sk p !! f). }
  rewrite Hinner.
  destruct (skipped f); [done|]. by destruct (keyed pk sk p !! f).
Qed.

Lemma safe_keyed (pk sk : DB.RESOURCE_FILTER) (p : Obj) :
  DB.unsafe_number (JObj p) = None ->
  DB.unsafe_number (JObj (keyed pk sk p)) = None.
Proof. intros Hp. unfold keyed. by repeat apply safe_insert. Qed.

(** X5. Sending the same update twice stores what sending it once at the
    later time stores: apart from [lastModifiedOn], [update] is
    idempotent (for a payload and a record that the document client
    stores). *)
Theorem update_twice_stores_what_the_later_update_stores (now now' : string)
    (r : loc) (pk sk : DB.RESOURCE_FILTER) (w : World) (p stored : Obj) :
  heap w !! r = Some p ->
  table w !! (DB.partition_key pk (id_of p), DB.filter_string sk)
    = Some stored ->
  storable p ->
  storable stored ->
  exists w1 w2 w2',
    DB.update now r pk sk w = (Returned tt, w1) /\
    DB.update now' r pk sk w1 = (Returned tt, w2) /\
    DB.update now' r pk sk w = (Returned tt, w2') /\
    table w2 = table w2'.
Proof.
  intros Hp Hstored [Hsp _] [Hss _]. eexists _, _, _.
  split.
  { apply (update_run now r pk sk w p stored Hp Hstored).
    by apply safe_updated. }
  split.
  - apply (update_run now' r pk sk _ (keyed pk sk p)
             (updated now pk sk p stored)).
    + cbn [heap]. rewrite lookup_insert_ne; [apply lookup_insert_eq|].
      apply not_eq_sym, fresh_is_new. rewrite lookup_insert_eq. by eexists.
    + cbn [table]. rewrite id_of_keyed. apply lookup_insert_eq.
    + apply safe_updated; [by apply safe_keyed|by apply safe_updated].
  - split.
    { apply (update_run now' r pk sk w p stored Hp Hstored).
      by apply safe_updated. }
    cbn [table]. rewrite id_of_keyed, updated_again.
    by rewrite insert_insert_eq.
Qed.

Lemma update_twice_stores_what_the_later_update_stores_witness :
  heap Fixture.one_item !! 0%nat = Some Fixture.patch /\
  table Fixture.one_item !! ("ITEM#1", "ITEM") = Some Fixture.stored_item /\
  storable Fixture.patch /\
  storable Fixture.stored_item /\
  exists w1 w2 w2',
    DB.update "t2" 0%nat Fixture.ITEM Fixture.ITEM Fixture.one_item
      = (Returned tt, w1) /\
    DB.update "t3" 0%nat Fixture.ITEM Fixture.ITEM w1 = (Returned tt, w2) /\
    DB.update "t3" 0%nat Fixture.ITEM Fixture.ITEM Fixture.one_item
      = (Returned tt, w2') /\
    table w2 = table w2'.
Proof.
  assert (storable Fixture.patch) as Hpatch
    by (split; vm_compute; reflexivity).
  assert (storable Fixture.stored_item) as Hstored
    by (split; vm_compute; reflexivity).
  split; [reflexivity|]. split; [reflexivity|].
  split; [exact Hpatch|]. split; [exact Hstored|].
  apply (update_twice_stores_what_the_later_update_stores "t2" "t3" 0%nat
           Fixture.ITEM Fixture.ITEM Fixture.one_item Fixture.patch
           Fixture.stored_item); [reflexivity|reflexivity|done|done].
Defined.

(** X6. After a successful [update], [get] on the same id returns the
    merged record without its keys: [lastModifiedOn] is the time of the
    update, [id] and [createdOn] are the stored ones, and every other
    attribute is the payload's when the payload has it and the stored one
    otherwise (for a payload and a record that the document client
    stores). *)
Theorem get_after_update_returns_the_merge (now : string) (r : loc)
    (pk sk : DB.RESOURCE_FILTER) (w : World) (p stored : Obj) :
  heap w !! r = Some p ->
  table w !! (DB.partition_key pk (id_of p), DB.filter_string sk)
    = Some stored ->
  storable p ->
  storable stored ->
  exists w' rec,
    DB.update now r pk sk w = (Returned tt, w') /\
    DB.get (id_of p) pk sk w' = (Returned (Some rec), w') /\
    rec !! "PK" = None /\ rec !! "SK" = None /\
    rec !! "lastModifiedOn" = Some (JStr now) /\
    rec !! "id" = stored !! "id" /\
    rec !! "createdOn" = stored !! "createdOn" /\
    (forall f, business_field f ->
               rec !! f = match p !! f with
                          | Some v => Some v
                          | None => stored !! f
                          end).
Proof.
  intros Hp Hstored Hsp Hss. eexists _, _.
  pose proof (storable_no_proto p Hsp) as Hproto.
  split.
  { apply (update_run now r pk sk w p stored Hp Hstored).
    apply safe_updated; by apply storable_safe. }
  rewrite get_run. cbn [table]. rewrite lookup_insert_eq.
  cbn [fmap option_fmap option_map]. split; [reflexivity|].
  assert (forall f, f <> "PK" -> f <> "SK" -> f <> "lastModifiedOn" ->
            delete "PK" (delete "SK" (updated now pk sk p stored)) !! f
            = if DB.immutable f then stored !! f
              else match p !! f with Some v => Some v | None => stored !! f end)
    as Hfield.
  { intros f H1 H2 H3.
    rewrite !lookup_delete_ne by done. unfold updated.
    rewrite lookup_insert_ne by done.
    rewrite merged_lookup, keyed_other by done.
    by rewrite !lookup_delete_ne by done. }
  repeat apply conj.
  - apply lookup_delete_eq.
  - rewrite lookup_delete_ne by done. apply lookup_delete_eq.
  - rewrite !lookup_delete_ne by done. unfold updated.
    apply lookup_insert_eq.
  - by rewrite Hfield.
  - by rewrite Hfield.
  - intros f Hf. destruct (business_field_ne f Hf) as (? & ? & ? & ? & ?).
    rewrite Hfield by done.
    assert (DB.immutable f = false) as ->; [|done].
    apply not_true_iff_false. rewrite immutable_spec.
    intros [-> | ->]; congruence.
Qed.

Lemma get_after_update_returns_the_merge_witness :
  heap Fixture.one_item !! 0%nat = Some Fixture.patch /\
  table Fixture.one_item !! ("ITEM#1", "ITEM") = Some Fixture.stored_item /\
  storable Fixture.patch /\
  storable Fixture.stored_item /\
  exists w' rec,
    DB.update "t2" 0%nat Fixture.ITEM Fixture.ITEM Fixture.one_item
      = (Returned tt, w') /\
    DB.get (id_of Fixture.patch) Fixture.ITEM Fixture.ITEM w'
      = (Returned (Some rec), w') /\
    rec !! "PK" = None /\ rec !! "SK" = None /\
    rec !! "lastModifiedOn" = Some (JStr "t2") /\
    rec !! "id" = Fixture.stored_item !! "id" /\
    rec !! "createdOn" = Fixture.stored_item !! "createdOn" /\
    (forall f, business_field f ->
               rec !! f = match Fixture.patch !! f with
                          | Some v => Some v
                          | None => Fixture.stored_item !! f
                          end).
Proof.
  assert (storable Fixture.patch) as Hpatch
    by (split; vm_compute; reflexivity).
  assert (storable Fixture.stored_item) as Hstored
    by (split; vm_compute; reflexivity).
  split; [reflexivity|]. split; [reflexivity|].
  split; [exact Hpatch|]. split; [exact Hstored|].
  apply (get_after_update_returns_the_merge "t2" 0%nat Fixture.ITEM
           Fixture.ITEM Fixture.one_item Fixture.patch Fixture.stored_item);
    [reflexivity|reflexivity|done|done].
Defined.

(** X21. [update] with a payload that carries, in an attribute of its own
    choosing, a number that is no safe integer: the record is found and
    merged, the document client refuses the merged item, and the call
    ends with that [Error]; the table is as before, and the caller's
    object has received its [PK] and [SK] all the same. *)
Theorem update_of_an_unsafe_number_leaves_the_record (now : string) (r : loc)
    (pk sk : DB.RESOURCE_FILTER) (w : World) (p stored : Obj) (f : string)
    (v : Json) (n : Z) :
  heap w !! r = Some p ->
  table w !! (DB.partition_key pk (id_of p), DB.filter_string sk)
    = Some stored ->
  p !! f = Some v ->
  business_field f ->
  f <> "__proto__" ->
  DB.unsafe_number v = Some n ->
  exists message w',
    DB.update now r pk sk w = (Thrown (VError message), w') /\
    table w' = table w /\
    heap w' !! r
      = Some (<["SK" := JStr (DB.filter_string sk)]>
                (<["PK" := JStr (DB.partition_key pk (id_of p))]> p)).
Proof.
  intros Hp Hstored Hf Hbusiness Hproto Hv.
  destruct (business_field_ne f Hbusiness) as (? & ? & ? & ? & ?).
  assert (updated now pk sk p stored !! f = Some v) as Hmerged.
  { unfold updated. rewrite lookup_insert_ne by done.
    rewrite merged_skipped, keyed_other by done. unfold skipped.
    assert (DB.immutable f = false) as ->.
    { apply not_true_iff_false. rewrite immutable_spec.
      intros [-> | ->]; congruence. }
    destruct (String.eqb_spec f "__proto__") as [->|_]; [done|].
    by rewrite Hf. }
  destruct (unsafe_attribute _ f v n Hmerged Hv) as [n' Hunsafe].
  eexists _, _.
  split; [apply (update_refused now r pk sk w p stored n' Hp Hstored Hunsafe)|].
  cbn [heap table with_heap]. split; [reflexivity|].
  rewrite lookup_insert_ne; [apply lookup_insert_eq|].
  apply not_eq_sym, fresh_is_new. rewrite lookup_insert_eq. by eexists.
Qed.

Lemma update_of_an_unsafe_number_leaves_the_record_witness :
  heap Fixture.one_item_unsafe_patch !! 0%nat = Some Fixture.unsafe_patch /\
  table Fixture.one_item_unsafe_patch
    !! (DB.partition_key Fixture.ITEM (id_of Fixture.unsafe_patch),
        DB.filter_string Fixture.ITEM) = Some Fixture.stored_item /\
  Fixture.unsafe_patch !! "n" = Some (JNum 9007199254740992) /\
  business_field "n" /\
  "n" <> "__proto__" /\
  DB.unsafe_number (JNum 9007199254740992) = Some 9007199254740992 /\
  exists message w',
    DB.update "t2" 0%nat Fixture.ITEM Fixture.ITEM
      Fixture.one_item_unsafe_patch = (Thrown (VError message), w') /\
    table w' = table Fixture.one_item_unsafe_patch /\
    heap w' !! 0%nat
      = Some (<["SK" := JStr (DB.filter_string Fixture.ITEM)]>
                (<["PK" := JStr (DB.partition_key Fixture.ITEM
                                   (id_of Fixture.unsafe_patch))]>
                   Fixture.unsafe_patch)).
Proof.
  assert (business_field "n") as Hbusiness
    by (unfold business_field; rewrite !not_elem_of_cons;
        repeat split; try discriminate; apply not_elem_of_nil).
  split; [reflexivity|]. split; [reflexivity|]. split; [reflexivity|].
  split; [exact Hbusiness|]. split; [discriminate|]. split; [reflexivity|].
  apply (update_of_an_unsafe_number_leaves_the_record "t2" 0%nat Fixture.ITEM
           Fixture.ITEM Fixture.one_item_unsafe_patch Fixture.unsafe_patch
           Fixture.stored_item "n" (JNum 9007199254740992) 9007199254740992);
    [reflexivity|reflexivity|reflexivity|exact Hbusiness|discriminate
    |reflexivity].
Defined.

(** ** [createLink] and [deleteWithFullKey] *)

Lemma createLink_run (now now' : string) (r : loc)
    (pk sk : DB.RESOURCE_FILTER) (w : World) :
  DB.unsafe_number (JObj (obj_at w r)) = None ->
  DB.createLink now now' r pk sk w =
    (Returned tt,
     {| heap := <[r := linked now now' pk sk (obj_at w r)]> (heap w);
        table := <[(DB.filter_string pk, DB.filter_string sk) :=
                     linked now now' pk sk (obj_at w r)]> (table w) |}).
Proof.
  intros Hsafe.
  assert (DB.createLink now now' r pk sk w =
            DB.PutCommand r
              (with_heap w (<[r := linked now now' pk sk (obj_at w r)]>
                              (heap w)))) as ->.
  { unfold DB.createLink, linked. js_eval.
    by rewrite !insert_insert_eq. }
  rewrite (PutCommand_run r _ (linked now now' pk sk (obj_at w r))
             (DB.filter_string pk) (DB.filter_string sk)); [reflexivity|..].
  - apply lookup_insert_eq.
  - unfold linked. by repeat apply safe_insert.
  - unfold linked. by lookups.
  - unfold linked. by lookups.
Qed.

(** X7. [createLink] stores the caller's object (one that the document
    client stores) under exactly the key it was given, with [createdOn],
    [lastModifiedOn], [PK] and [SK] set and every other attribute (an [id]
    included: none is assigned) as the caller had it; [deleteWithFullKey]
    on the same key then restores the table, when nothing was stored under
    the key before. *)
Theorem createLink_then_deleteWithFullKey (now now' : string) (r : loc)
    (pk sk : DB.RESOURCE_FILTER) (w : World) (e : Obj) :
  heap w !! r = Some e ->
  storable e ->
  table w !! (DB.filter_string pk, DB.filter_string sk) = None ->
  exists w1 w2 link,
    DB.createLink now now' r pk sk w = (Returned tt, w1) /\
    table w1 !! (DB.filter_string pk, DB.filter_string sk) = Some link /\
    heap w1 !! r = Some link /\
    link !! "PK" = Some (JStr (DB.filter_string pk)) /\
    link !! "SK" = Some (JStr (DB.filter_string sk)) /\
    link !! "createdOn" = Some (JStr now) /\
    link !! "lastModifiedOn" = Some (JStr now') /\
    (forall f, f ∉ ["createdOn"; "lastModifiedOn"; "PK"; "SK"] ->
               link !! f = e !! f) /\
    DB.deleteWithFullKey pk sk w1 = (Returned tt, w2) /\
    table w2 = table w.
Proof.
  intros He [Hsafe _] Hfree. eexists _, _, _.
  rewrite createLink_run; rewrite (obj_at_heap _ _ _ He); [|exact Hsafe].
  cbn [heap table].
  split; [reflexivity|]. split; [apply lookup_insert_eq|].
  split; [apply lookup_insert_eq|]. unfold linked.
  repeat apply conj; lookups; try reflexivity.
  - intros f Hf. rewrite !not_elem_of_cons in Hf.
    destruct Hf as (? & ? & ? & ? & _). by lookups.
  - unfold DB.deleteWithFullKey, DB.DeleteCommand, with_table.
    cbn [table heap]. by rewrite delete_insert_id.
Qed.

Lemma createLink_then_deleteWithFullKey_witness :
  heap Fixture.before_create !! 0%nat = Some Fixture.new_item /\
  storable Fixture.new_item /\
  table Fixture.before_create !! ("ITEM#1", "ITEM#2") = None /\
  exists w1 w2 link,
    DB.createLink "t0" "t1" 0%nat
      (DB.ResourceOf DB.ITEM "1") (DB.ResourceOf DB.ITEM "2")
      Fixture.before_create = (Returned tt, w1) /\
    table w1 !! ("ITEM#1", "ITEM#2") = Some link /\
    heap w1 !! 0%nat = Some link /\
    link !! "PK" = Some (JStr "ITEM#1") /\
    link !! "SK" = Some (JStr "ITEM#2") /\
    link !! "createdOn" = Some (JStr "t0") /\
    link !! "lastModifiedOn" = Some (JStr "t1") /\
    (forall f, f ∉ ["createdOn"; "lastModifiedOn"; "PK"; "SK"] ->
               link !! f = Fixture.new_item !! f) /\
    DB.deleteWithFullKey (DB.ResourceOf DB.ITEM "1") (DB.ResourceOf DB.ITEM "2")
      w1 = (Returned tt, w2) /\
    table w2 = table Fixture.before_create.
Proof.
  assert (storable Fixture.new_item) as Hstorable
    by (split; vm_compute; reflexivity).
  split; [reflexivity|]. split; [exact Hstorable|]. split; [reflexivity|].
  apply (createLink_then_deleteWithFullKey "t0" "t1" 0%nat
           (DB.ResourceOf DB.ITEM "1") (DB.ResourceOf DB.ITEM "2")
           Fixture.before_create Fixture.new_item);
    [reflexivity|exact Hstorable|reflexivity].
Defined.

(** ** [list] when the store fails *)

Section List_failure.
Variable send : DB.QueryInput -> Outcome DB.QueryOutput.
Variables sk pk : string.
Variable e : JsVal.

Lemma load_pages_fails (start : option Obj) (pages : list DB.QueryOutput) :
  fails_after send sk pk e start pages ->
  forall (key : Obj) (results : DB.QueryOutput) (items : list Obj)
         (fuel : nat),
    start = Some key ->
    DB.LastEvaluatedKey results = Some key ->
    (length pages < fuel)%nat ->
    DB.load_pages send fuel sk pk results items = Some (Thrown e).
Proof.
  induction 1 as [start Hsend|start page key' pages Hsend Hmore Hrest IH];
    intros key results items fuel -> Hkey Hfuel.
  - destruct fuel as [|fuel]; [cbn in Hfuel; lia|].
    cbn [DB.load_pages]. by rewrite Hkey, Hsend.
  - destruct fuel as [|fuel]; [cbn in Hfuel; lia|].
    cbn [DB.load_pages]. rewrite Hkey, Hsend.
    apply (IH key' page _ fuel eq_refl Hmore). cbn in Hfuel. lia.
Qed.
End List_failure.

(** X9. When the store fails with [e] on some page, after having served
    the pages [pages] (the first with its [Items]), [list] fails with [e]:
    the items already read are not returned. *)
Theorem list_fails_when_a_page_fails
    (send : DB.QueryInput -> Outcome DB.QueryOutput)
    (sk pk : DB.RESOURCE_FILTER) (e : JsVal) (pages : list DB.QueryOutput)
    (fuel : nat) :
  fails_after send (DB.filter_string sk) (DB.filter_string pk) e None pages ->
  (forall page, head pages = Some page -> is_Some (DB.Items page)) ->
  (length pages <= fuel)%nat ->
  DB.list send fuel sk pk = Some (Thrown e).
Proof.
  intros Hfails Hfirst Hfuel. unfold DB.list.
  inversion Hfails as [start Hsend|start page key rest Hsend Hmore Hrest];
    subst.
  - by rewrite Hsend.
  - rewrite Hsend. destruct (Hfirst page eq_refl) as [first ->].
    rewrite (load_pages_fails send _ _ e (Some key) rest Hrest key page first
               fuel eq_refl Hmore); [done|].
    cbn in Hfuel. lia.
Qed.

Lemma list_fails_when_a_page_fails_witness :
  fails_after
    (fun q => match DB.ExclusiveStartKey q with
              | None => Returned Fixture.page1
              | Some _ => Thrown (VError "ProvisionedThroughputExceeded")
              end)
    "ITEM" "ITEM" (VError "ProvisionedThroughputExceeded") None
    [Fixture.page1] /\
  (forall page, head [Fixture.page1] = Some page -> is_Some (DB.Items page)) /\
  (length [Fixture.page1] <= 1)%nat /\
  DB.list
    (fun q => match DB.ExclusiveStartKey q with
              | None => Returned Fixture.page1
              | Some _ => Thrown (VError "ProvisionedThroughputExceeded")
              end)
    1 Fixture.ITEM Fixture.ITEM
    = Some (Thrown (VError "ProvisionedThroughputExceeded")).
Proof.
  assert (fails_after
            (fun q => match DB.ExclusiveStartKey q with
                      | None => Returned Fixture.page1
                      | Some _ => Thrown (VError "ProvisionedThroughputExceeded")
                      end)
            "ITEM" "ITEM" (VError "ProvisionedThroughputExceeded") None
            [Fixture.page1]) as Hfails.
  { eapply fails_later; [reflexivity|reflexivity|].
    apply fails_now. reflexivity. }
  assert (forall page, head [Fixture.page1] = Some page ->
                       is_Some (DB.Items page)) as Hfirst.
  { intros page [= <-]. by eexists. }
  split; [exact Hfails|]. split; [exact Hfirst|]. split; [cbn; lia|].
  apply (list_fails_when_a_page_fails _ Fixture.ITEM Fixture.ITEM _
           [Fixture.page1] 1 Hfails Hfirst).
  cbn. lia.
Defined.

(* ================================================================== *)
(** * Further properties of the controllers *)
(* ================================================================== *)

Section More_controller_facts.
Variable JSON_text : Json -> string.
Variable JSON_parse : string -> Json + string.

Lemma on_error_Error (m : string) (w : World) :
  on_error JSON_text (VError m) w
    = (Returned (mkResponse 500 allow_all (Some m)), w).
Proof. reflexivity. Qed.

Lemma create_handler_run (v4 now now' : string) (request : IRequest)
    (p : Obj) (w : World) :
  JSON_parse (ToString (request_body request)) = inl (JObj p) ->
  DB.unsafe_number (JObj (created v4 now now' Fixture.ITEM Fixture.ITEM p))
    = None ->
  ItemsCreateController_handler JSON_text JSON_parse v4 now now' request w =
    (Returned (mkResponse 201 allow_all
                 (Some (JSON_text (JObj {[ "id" := JStr v4 ]})))),
     {| heap := <[fresh (dom (heap w)) :=
                   created v4 now now' Fixture.ITEM Fixture.ITEM p]> (heap w);
        table := <[item_key (VStr v4) :=
                     created v4 now now' Fixture.ITEM Fixture.ITEM p]>
                   (table w) |}).
Proof.
  intros Hparse Hsafe.
  unfold ItemsCreateController_handler, try_catch. rewrite Hparse.
  erewrite run_bind; [|reflexivity].
  erewrite run_bind;
    [|apply create_run; by rewrite obj_at_insert].
  unfold mret, async_ret, with_heap, obj_at. cbn [heap table].
  rewrite lookup_insert_eq, insert_insert_eq. reflexivity.
Qed.

Lemma create_handler_refused (v4 now now' : string) (request : IRequest)
    (p : Obj) (w : World) (n : Z) :
  JSON_parse (ToString (request_body request)) = inl (JObj p) ->
  DB.unsafe_number (JObj (created v4 now now' Fixture.ITEM Fixture.ITEM p))
    = Some n ->
  ItemsCreateController_handler JSON_text JSON_parse v4 now now' request w =
    (Returned (mkResponse 500 allow_all (Some (DB.not_a_safe_integer n))),
     with_heap w (<[fresh (dom (heap w)) :=
                      created v4 now now' Fixture.ITEM Fixture.ITEM p]>
                    (heap w))).
Proof.
  intros Hparse Hunsafe.
  unfold ItemsCreateController_handler, try_catch. rewrite Hparse.
  erewrite run_bind; [|reflexivity].
  erewrite run_bind_thrown;
    [|apply (create_refused _ _ _ _ _ _ _ n); by rewrite obj_at_insert].
  rewrite on_error_Error.
  unfold with_heap, obj_at. cbn [heap table].
  by rewrite lookup_insert_eq, insert_insert_eq.
Qed.

Lemma delete_handler_run (request : IRequest) (w : World) :
  ItemsDeleteController_handler JSON_text request w =
    (Returned (mkResponse 204 allow_all None),
     with_table w (delete (item_key (pathParameters_id request)) (table w))).
Proof. reflexivity. Qed.
End More_controller_facts.

(** X10. [POST /items] with a body that parses to an object [p] which the
    document client stores answers 201 with the text of [{ id }] for the
    uuid drawn, and stores [p] with [id], [createdOn], [lastModifiedOn],
    [PK] and [SK] set by the server (values the client sent for these are
    replaced); every other attribute is the client's and no other record
    changes. *)
Theorem post_stores_the_item_under_a_server_id (JSON_text : Json -> string)
    (JSON_parse : string -> Json + string) (v4 now now' : string)
    (request : IRequest) (p : Obj) (w : World) :
  JSON_parse (ToString (request_body request)) = inl (JObj p) ->
  storable p ->
  exists w' rec,
    ItemsCreateController_handler JSON_text JSON_parse v4 now now' request w
      = (Returned (mkResponse 201 allow_all
                     (Some (JSON_text (JObj {[ "id" := JStr v4 ]})))), w') /\
    table w' !! ("ITEM#" +:+ v4, "ITEM") = Some rec /\
    rec !! "id" = Some (JStr v4) /\
    rec !! "createdOn" = Some (JStr now) /\
    rec !! "lastModifiedOn" = Some (JStr now') /\
    rec !! "PK" = Some (JStr ("ITEM#" +:+ v4)) /\
    rec !! "SK" = Some (JStr "ITEM") /\
    (forall f, business_field f -> rec !! f = p !! f) /\
    (forall k, k <> ("ITEM#" +:+ v4, "ITEM") -> table w' !! k = table w !! k).
Proof.
  intros Hparse [Hsafe _]. eexists _, _.
  split.
  { apply (create_handler_run _ _ v4 now now' request p w Hparse).
    by apply safe_created. }
  cbn [table]. split; [apply lookup_insert_eq|].
  destruct (created_fields v4 now now' Fixture.ITEM Fixture.ITEM p)
    as (Hid & Hcreated & Hmodified & Hpk & Hsk & Hother).
  repeat apply conj; try assumption.
  intros k Hk. rewrite lookup_insert_ne; [done|].
  intros Heq. apply Hk. by rewrite <- Heq.
Qed.

Lemma post_stores_the_item_under_a_server_id_witness :
  Fixture.parse_known [JObj Fixture.new_item]
    (ToString (request_body
                 (mkRequest ∅ (VStr (Fixture.compact_json
                                       (JObj Fixture.new_item))))))
    = inl (JObj Fixture.new_item) /\
  storable Fixture.new_item /\
  exists w' rec,
    ItemsCreateController_handler Fixture.compact_json
      (Fixture.parse_known [JObj Fixture.new_item]) "6f1c" "t0" "t1"
      (mkRequest ∅ (VStr (Fixture.compact_json (JObj Fixture.new_item))))
      Fixture.nothing
      = (Returned (mkResponse 201 allow_all
                     (Some (Fixture.compact_json
                              (JObj {[ "id" := JStr "6f1c" ]})))), w') /\
    table w' !! ("ITEM#" +:+ "6f1c", "ITEM") = Some rec /\
    rec !! "id" = Some (JStr "6f1c") /\
    rec !! "createdOn" = Some (JStr "t0") /\
    rec !! "lastModifiedOn" = Some (JStr "t1") /\
    rec !! "PK" = Some (JStr ("ITEM#" +:+ "6f1c")) /\
    rec !! "SK" = Some (JStr "ITEM") /\
    (forall f, business_field f -> rec !! f = Fixture.new_item !! f) /\
    (forall k, k <> ("ITEM#" +:+ "6f1c", "ITEM") ->
               table w' !! k = table Fixture.nothing !! k).
Proof.
  assert (Fixture.parse_known [JObj Fixture.new_item]
            (ToString (request_body
                         (mkRequest ∅ (VStr (Fixture.compact_json
                                               (JObj Fixture.new_item))))))
          = inl (JObj Fixture.new_item)) as Hparse
    by (vm_compute; reflexivity).
  assert (storable Fixture.new_item) as Hstorable
    by (split; vm_compute; reflexivity).
  split; [exact Hparse|]. split; [exact Hstorable|].
  apply (post_stores_the_item_under_a_server_id Fixture.compact_json
           (Fixture.parse_known [JObj Fixture.new_item]) "6f1c" "t0" "t1"
           (mkRequest ∅ (VStr (Fixture.compact_json (JObj Fixture.new_item))))
           Fixture.new_item Fixture.nothing Hparse Hstorable).
Defined.

(** X22. [POST /items] with a body that carries, in an attribute of its
    own choosing, a number that is no safe integer: the document client
    refuses the item, so the answer is 500 with the message of its [Error]
    as body, and the table is as before, although [create] had already
    written the five server attributes on the parsed body. *)
Theorem post_of_an_unsafe_number_answers_500 (JSON_text : Json -> string)
    (JSON_parse : string -> Json + string) (v4 now now' : string)
    (request : IRequest) (p : Obj) (w : World) (f : string) (v : Json)
    (n : Z) :
  JSON_parse (ToString (request_body request)) = inl (JObj p) ->
  p !! f = Some v ->
  business_field f ->
  DB.unsafe_number v = Some n ->
  exists message w',
    ItemsCreateController_handler JSON_text JSON_parse v4 now now' request w
      = (Returned (mkResponse 500 allow_all (Some message)), w') /\
    table w' = table w /\
    heap w' !! fresh (dom (heap w))
      = Some (created v4 now now' Fixture.ITEM Fixture.ITEM p).
Proof.
  intros Hparse Hf Hbusiness Hv.
  destruct (created_fields v4 now now' Fixture.ITEM Fixture.ITEM p)
    as (_ & _ & _ & _ & _ & Hother).
  rewrite <- (Hother f Hbusiness) in Hf.
  destruct (unsafe_attribute _ f v n Hf Hv) as [n' Hunsafe].
  eexists _, _.
  split; [apply (create_handler_refused _ _ v4 now now' request p w n'
                   Hparse Hunsafe)|].
  cbn [table heap with_heap]. split; [reflexivity|apply lookup_insert_eq].
Qed.

Lemma post_of_an_unsafe_number_answers_500_witness :
  Fixture.parse_known [JObj {[ "n" := JNum 9007199254740992 ]}]
    (ToString
       (request_body
          (mkRequest ∅
             (VStr (Fixture.compact_json
                      (JObj {[ "n" := JNum 9007199254740992 ]}))))))
    = inl (JObj {[ "n" := JNum 9007199254740992 ]}) /\
  ({[ "n" := JNum 9007199254740992 ]} : Obj) !! "n"
    = Some (JNum 9007199254740992) /\
  business_field "n" /\
  DB.unsafe_number (JNum 9007199254740992) = Some 9007199254740992 /\
  exists message w',
    ItemsCreateController_handler Fixture.compact_json
      (Fixture.parse_known [JObj {[ "n" := JNum 9007199254740992 ]}])
      "6f1c" "t0" "t1"
      (mkRequest ∅
         (VStr (Fixture.compact_json
                  (JObj {[ "n" := JNum 9007199254740992 ]}))))
      Fixture.nothing
      = (Returned (mkResponse 500 allow_all (Some message)), w') /\
    table w' = table Fixture.nothing /\
    heap w' !! fresh (dom (heap Fixture.nothing))
      = Some (created "6f1c" "t0" "t1" Fixture.ITEM Fixture.ITEM
                {[ "n" := JNum 9007199254740992 ]}).
Proof.
  assert (Fixture.parse_known [JObj {[ "n" := JNum 9007199254740992 ]}]
            (ToString
               (request_body
                  (mkRequest ∅
                     (VStr (Fixture.compact_json
                              (JObj {[ "n" := JNum 9007199254740992 ]}))))))
          = inl (JObj {[ "n" := JNum 9007199254740992 ]})) as Hparse
    by (vm_compute; reflexivity).
  assert (business_field "n") as Hbusiness
    by (unfold business_field; rewrite !not_elem_of_cons;
        repeat split; try discriminate; apply not_elem_of_nil).
  split; [exact Hparse|]. split; [reflexivity|]. split; [exact Hbusiness|].
  split; [reflexivity|].
  apply (post_of_an_unsafe_number_answers_500 Fixture.compact_json
           (Fixture.parse_known [JObj {[ "n" := JNum 9007199254740992 ]}])
           "6f1c" "t0" "t1"
           (mkRequest ∅
              (VStr (Fixture.compact_json
                       (JObj {[ "n" := JNum 9007199254740992 ]}))))
           {[ "n" := JNum 9007199254740992 ]} Fixture.nothing "n"
           (JNum 9007199254740992) 9007199254740992 Hparse eq_refl
           Hbusiness eq_refl).
Defined.

(** X11. [POST /items] with a body that is not JSON, or that is the JSON
    text of [null], answers 500 with the message of the [SyntaxError],
    respectively of the [TypeError] that the first assignment of [create]
    raises on [null], as its body; nothing is stored. *)
Theorem post_rejects_a_body_that_is_no_object (JSON_text : Json -> string)
    (JSON_parse : string -> Json + string) (v4 now now' : string)
    (request : IRequest) (w : World) (message : string) :
  JSON_parse (ToString (request_body request)) = inr message \/
  (JSON_parse (ToString (request_body request)) = inl JNull /\
   message = "Cannot set properties of null (setting 'id')") ->
  ItemsCreateController_handler JSON_text JSON_parse v4 now now' request w
    = (Returned (mkResponse 500 allow_all (Some message)), w).
Proof.
  unfold ItemsCreateController_handler, try_catch.
  intros [Hparse|[Hparse ->]]; rewrite Hparse.
  - reflexivity.
  - erewrite run_bind_thrown; [|reflexivity]. reflexivity.
Qed.

Lemma post_rejects_a_body_that_is_no_object_witness :
  (Fixture.parse_known [JNull]
     (ToString (request_body (mkRequest ∅ (VStr "null"))))
     = inr "Cannot set properties of null (setting 'id')" \/
   (Fixture.parse_known [JNull]
      (ToString (request_body (mkRequest ∅ (VStr "null")))) = inl JNull /\
    "Cannot set properties of null (setting 'id')"
      = "Cannot set properties of null (setting 'id')")) /\
  ItemsCreateController_handler Fixture.compact_json
    (Fixture.parse_known [JNull]) "6f1c" "t0" "t1"
    (mkRequest ∅ (VStr "null")) Fixture.nothing
    = (Returned (mkResponse 500 allow_all
                   (Some "Cannot set properties of null (setting 'id')")),
       Fixture.nothing).
Proof.
  assert (Fixture.parse_known [JNull]
            (ToString (request_body (mkRequest ∅ (VStr "null")))) = inl JNull /\
          "Cannot set properties of null (setting 'id')"
            = "Cannot set properties of null (setting 'id')") as Hbody
    by (split; vm_compute; reflexivity).
  split; [right; exact Hbody|].
  apply (post_rejects_a_body_that_is_no_object Fixture.compact_json
           (Fixture.parse_known [JNull]) "6f1c" "t0" "t1"
           (mkRequest ∅ (VStr "null")) Fixture.nothing
           "Cannot set properties of null (setting 'id')").
  right. exact Hbody.
Defined.

(** X12. [DELETE /items/:id] answers 204 with no body whether or not the
    item exists; afterwards the key is free, every other record is as
    before, and the same request again gives the same answer and changes
    nothing. *)
Theorem delete_answers_204_and_is_idempotent (JSON_text : Json -> string)
    (request : IRequest) (w : World) :
  exists w',
    ItemsDeleteController_handler JSON_text request w
      = (Returned (mkResponse 204 allow_all None), w') /\
    table w' !! item_key (pathParameters_id request) = None /\
    (forall k, k <> item_key (pathParameters_id request) ->
               table w' !! k = table w !! k) /\
    ItemsDeleteController_handler JSON_text request w'
      = (Returned (mkResponse 204 allow_all None), w').
Proof.
  eexists. split; [apply delete_handler_run|].
  cbn [table with_table]. repeat apply conj.
  - apply lookup_delete_eq.
  - intros k Hk. rewrite lookup_delete_ne by congruence. reflexivity.
  - rewrite delete_handler_run. unfold with_table. cbn [heap table].
    by rewrite delete_delete_eq.
Qed.




(** X14. When the store fails with an [Error] on some page, [GET /items]
    answers 500 with that error's message as its body. *)
Theorem list_handler_answers_500_when_the_store_fails
    (JSON_text : Json -> string)
    (send : DB.QueryInput -> Outcome DB.QueryOutput) (message : string)
    (pages : list DB.QueryOutput) (fuel : nat) (w : World) :
  fails_after send "ITEM" "ITEM" (VError message) None pages ->
  (forall page, head pages = Some page -> is_Some (DB.Items page)) ->
  (length pages <= fuel)%nat ->
  exists run,
    ItemsListController_handler JSON_text send fuel = Some run /\
    run w = (Returned (mkResponse 500 allow_all (Some message)), w).
Proof.
  intros Hfails Hfirst Hfuel. unfold ItemsListController_handler, DB.list.
  destruct Hfails as [start Hsend|start page key rest Hsend Hmore Hrest].
  - change (DB.filter_string (DB.Resource DB.ITEM)) with "ITEM".
    rewrite Hsend. eexists. split; reflexivity.
  - change (DB.filter_string (DB.Resource DB.ITEM)) with "ITEM".
    rewrite Hsend. destruct (Hfirst page eq_refl) as [first ->].
    rewrite (load_pages_fails send _ _ (VError message) (Some key) rest Hrest
               key page first fuel eq_refl Hmore); [|cbn in Hfuel; lia].
    eexists. split; reflexivity.
Qed.

Lemma list_handler_answers_500_when_the_store_fails_witness :
  fails_after (fun _ => Thrown (VError "ECONNREFUSED")) "ITEM" "ITEM"
    (VError "ECONNREFUSED") None [] /\
  (forall page, head (@nil DB.QueryOutput) = Some page ->
                is_Some (DB.Items page)) /\
  (length (@nil DB.QueryOutput) <= 0)%nat /\
  exists run,
    ItemsListController_handler Fixture.compact_json
      (fun _ => Thrown (VError "ECONNREFUSED")) 0 = Some run /\
    run Fixture.nothing
      = (Returned (mkResponse 500 allow_all (Some "ECONNREFUSED")),
         Fixture.nothing).
Proof.
  assert (fails_after (fun _ => Thrown (VError "ECONNREFUSED")) "ITEM" "ITEM"
            (VError "ECONNREFUSED") None []) as Hfails
    by (apply fails_now; reflexivity).
  assert (forall page, head (@nil DB.QueryOutput) = Some page ->
                       is_Some (DB.Items page)) as Hfirst
    by (intros page H; discriminate H).
  split; [exact Hfails|]. split; [exact Hfirst|]. split; [cbn; lia|].
  apply (list_handler_answers_500_when_the_store_fails Fixture.compact_json
           (fun _ => Thrown (VError "ECONNREFUSED")) "ECONNREFUSED" [] 0
           Fixture.nothing Hfails Hfirst).
  cbn. lia.
Defined.

(* ================================================================== *)
(** * Further properties of the dispatcher *)
(* ================================================================== *)

(** X15. [PUT /items/:id] through the dispatcher, with a body [p] (which
    [JSON.parse] reads back from its text) whose own id names a stored
    record, body and record being objects that the document client
    stores: the answer is 204 with the empty object and the record named
    by the body is replaced by the merge, carrying the time of the update
    and the payload's other attributes; no other record changes.  The id
    in the path plays no part. *)
Theorem put_updates_the_record_the_body_names (JSON_text : Json -> string)
    (JSON_parse : string -> Json + string) (now : string)
    (params : gmap string string) (p stored : Obj) (w : World) :
  JSON_parse (JSON_text (JObj p)) = inl (JObj p) ->
  table w !! item_key (id_of p) = Some stored ->
  storable p ->
  storable stored ->
  exists w' rec,
    route_callback JSON_text JSON_parse
      (invoke (ItemsUpdateController_handler JSON_text JSON_parse now))
      (mkExpressRequest (VData (JObj p)) params) w
      = (Responded {| status := VData (JNum 204); sent := JObj ∅ |}, w') /\
    table w' !! item_key (id_of p) = Some rec /\
    rec !! "lastModifiedOn" = Some (JStr now) /\
    (forall f v, p !! f = Some v -> business_field f -> rec !! f = Some v) /\
    (forall k, k <> item_key (id_of p) -> table w' !! k = table w !! k).
Proof.
  intros Hparse Hstored Hsp Hss.
  pose proof (storable_no_proto p Hsp) as Hproto.
  set (resource := fresh (dom (heap w))).
  set (w1 := with_heap w (<[resource := p]> (heap w))).
  pose proof (update_run now resource Fixture.ITEM Fixture.ITEM w1 p stored
                (lookup_insert_eq _ _ _) Hstored
                (safe_updated now Fixture.ITEM Fixture.ITEM p stored
                   (storable_safe p Hsp) (storable_safe stored Hss)))
    as Hupdate.
  eexists _, _. split.
  - unfold route_callback, invoke.
    erewrite run_bind.
    2:{ unfold ItemsUpdateController_handler, try_catch, invocation_request.
        cbn [req_body truthy typeof_object andb JSON_stringify request_body
             ToString json_to_string VStr].
        rewrite Hparse.
        erewrite run_bind; [|reflexivity].
        fold resource. fold w1.
        erewrite run_bind; [|exact Hupdate].
        reflexivity. }
    unfold mret, async_ret.
    change (buildResponseBody JSON_text 204 VUndefined ALLOW)
      with (mkResponse 204 allow_all None).
    by rewrite write_result_without_body by reflexivity.
  - cbn [table]. unfold item_key.
    split; [apply lookup_insert_eq|].
    unfold updated. split; [apply lookup_insert_eq|]. split.
    + intros f v Hf Hb.
      destruct (business_field_ne f Hb) as (? & ? & ? & ? & ?).
      rewrite lookup_insert_ne by done.
      rewrite merged_lookup, keyed_other by done.
      assert (DB.immutable f = false) as ->.
      { apply not_true_iff_false. rewrite immutable_spec.
        intros [-> | ->]; congruence. }
      by rewrite Hf.
    + intros k Hk. subst w1. cbn [table with_heap].
      rewrite lookup_insert_ne by congruence. reflexivity.
Qed.

Lemma put_updates_the_record_the_body_names_witness :
  Fixture.parse_known [JObj Fixture.patch]
    (Fixture.compact_json (JObj Fixture.patch)) = inl (JObj Fixture.patch) /\
  table Fixture.one_item !! item_key (id_of Fixture.patch)
    = Some Fixture.stored_item /\
  storable Fixture.patch /\
  storable Fixture.stored_item /\
  exists w' rec,
    route_callback Fixture.compact_json
      (Fixture.parse_known [JObj Fixture.patch])
      (invoke (ItemsUpdateController_handler Fixture.compact_json
                 (Fixture.parse_known [JObj Fixture.patch]) "t2"))
      (mkExpressRequest (VData (JObj Fixture.patch)) {[ "id" := "7" ]})
      Fixture.one_item
      = (Responded {| status := VData (JNum 204); sent := JObj ∅ |}, w') /\
    table w' !! item_key (id_of Fixture.patch) = Some rec /\
    rec !! "lastModifiedOn" = Some (JStr "t2") /\
    (forall f v, Fixture.patch !! f = Some v -> business_field f ->
                 rec !! f = Some v) /\
    (forall k, k <> item_key (id_of Fixture.patch) ->
               table w' !! k = table Fixture.one_item !! k).
Proof.
  assert (Fixture.parse_known [JObj Fixture.patch]
            (Fixture.compact_json (JObj Fixture.patch))
          = inl (JObj Fixture.patch)) as Hparse by (vm_compute; reflexivity).
  assert (storable Fixture.patch) as Hpatch
    by (split; vm_compute; reflexivity).
  assert (storable Fixture.stored_item) as Hstored
    by (split; vm_compute; reflexivity).
  split; [exact Hparse|]. split; [reflexivity|].
  split; [exact Hpatch|]. split; [exact Hstored|].
  apply (put_updates_the_record_the_body_names Fixture.compact_json
           (Fixture.parse_known [JObj Fixture.patch]) "t2" {[ "id" := "7" ]}
           Fixture.patch Fixture.stored_item Fixture.one_item Hparse);
    [reflexivity|exact Hpatch|exact Hstored].
Defined.

(** X16. A handler response whose body is a string that [JSON.parse]
    rejects (a plain-text message, say) does not reach the client: whatever
    status the handler chose, the dispatcher answers 500 with the message
    of the [SyntaxError]. *)
Theorem plain_text_body_becomes_a_500 (JSON_text : Json -> string)
    (JSON_parse : string -> Json + string)
    (handler : IRequest -> Async JsVal) (req : ExpressRequest) (w w' : World)
    (code : Z) (h : gmap string string) (text syntax_error : string) :
  handler (invocation_request JSON_text req) w
    = (Returned (response_value (mkResponse code h (Some text))), w') ->
  JSON_parse text = inr syntax_error ->
  route_callback JSON_text JSON_parse handler req w
    = (Responded {| status := VData (JNum 500);
                    sent := JObj {[ "error" := JStr syntax_error ]} |}, w').
Proof.
  intros Hhandler Hparse. unfold route_callback. rewrite Hhandler.
  rewrite write_result_with_body, Hparse. reflexivity.
Qed.

Lemma plain_text_body_becomes_a_500_witness :
  (fun _ : IRequest =>
     (mret (response_value (mkResponse 400 ∅ (Some "id is required")))
      : Async JsVal))
    (invocation_request Fixture.compact_json
       (mkExpressRequest VUndefined ∅)) Fixture.nothing
    = (Returned (response_value (mkResponse 400 ∅ (Some "id is required"))),
       Fixture.nothing) /\
  Fixture.parse_known [] "id is required" = inr "Unexpected token" /\
  route_callback Fixture.compact_json (Fixture.parse_known [])
    (fun _ : IRequest =>
       (mret (response_value (mkResponse 400 ∅ (Some "id is required")))
        : Async JsVal))
    (mkExpressRequest VUndefined ∅) Fixture.nothing
    = (Responded {| status := VData (JNum 500);
                    sent := JObj {[ "error" := JStr "Unexpected token" ]} |},
       Fixture.nothing).
Proof.
  split; [reflexivity|]. split; [reflexivity|].
  apply (plain_text_body_becomes_a_500 Fixture.compact_json
           (Fixture.parse_known [])
           (fun _ : IRequest =>
              (mret (response_value
                       (mkResponse 400 ∅ (Some "id is required")))
               : Async JsVal))
           (mkExpressRequest VUndefined ∅) Fixture.nothing Fixture.nothing
           400 ∅ "id is required" "Unexpected token"); reflexivity.
Defined.

(** X17. A handler response built by [buildResponseBody] from a value that
    is not a string, and whose text [JSON.parse] reads back, is always
    answered.  With a status that Express accepts (100 to 999), or with the
    status 0, the client receives the handler's status (200 for 0) and the
    value itself, unless the value is falsy ([null], [false], [0]): then
    it receives the empty object.  Any other status is refused by
    [res.status] inside the [try], and the client receives a 500 whose
    body carries the message of that error. *)
Theorem json_body_reaches_the_client (JSON_text : Json -> string)
    (JSON_parse : string -> Json + string) (req : ExpressRequest) (w : World)
    (code : Z) (hm : HeadersModel) (j : Json) :
  typeof_string (VData j) = false ->
  JSON_parse (JSON_text j) = inl j ->
  exists res,
    route_callback JSON_text JSON_parse
      (fun _ => (mret (response_value
                         (buildResponseBody JSON_text code (VData j) hm))
                 : Async JsVal)) req w
      = (Responded res, w) /\
    (code = 0 \/ 100 <= code <= 999 ->
     res = {| status := VData (JNum (if code =? 0 then 200 else code));
              sent := if truthy (VData j) then j else JObj ∅ |}) /\
    (code <> 0 -> ~ 100 <= code <= 999 ->
     status res = VData (JNum 500) /\
     exists message, sent res = JObj {[ "error" := JStr message ]}).
Proof.
  intros Hstring Hparse. unfold route_callback, mret, async_ret.
  assert (buildResponseBody JSON_text code (VData j) hm
          = mkResponse code
              (match hm with
               | ALLOW => allow_all | Headers h => h | NoHeaders => ∅
               end) (Some (JSON_text j))) as ->.
  { unfold buildResponseBody. by destruct j. }
  rewrite write_result_with_body, Hparse.
  unfold or_else, status_error. cbn [truthy].
  assert (json_sent (if truthy (VData j) then VData j else VData (JObj ∅))
          = if truthy (VData j) then j else JObj ∅) as Hsent
    by (by destruct (truthy (VData j))).
  cbn [truthy] in Hsent.
  destruct (code =? 0) eqn:Hzero; cbn [negb].
  - apply Z.eqb_eq in Hzero as ->. cbn.
    eexists. split; [reflexivity|]. split.
    + intros _. by rewrite Hsent.
    + intros H. by contradict H.
  - apply Z.eqb_neq in Hzero.
    destruct ((100 <=? code) && (code <=? 999)) eqn:Hrange.
    + apply andb_true_iff in Hrange as [H1%Z.leb_le H2%Z.leb_le].
      eexists. split; [reflexivity|]. split.
      * intros _. by rewrite Hsent.
      * intros _ H. contradict H. by split.
    + eexists. split; [reflexivity|]. split.
      * intros [->|[H1%Z.leb_le H2%Z.leb_le]]; [done|].
        by rewrite H1, H2 in Hrange.
      * intros _ _. cbn [status sent error_object]. split; [reflexivity|].
        by eexists.
Qed.

Lemma json_body_reaches_the_client_witness :
  typeof_string (VData (JNum 0)) = false /\
  Fixture.parse_known [JNum 0] (Fixture.compact_json (JNum 0))
    = inl (JNum 0) /\
  exists res,
    route_callback Fixture.compact_json (Fixture.parse_known [JNum 0])
      (fun _ => (mret (response_value
                         (buildResponseBody Fixture.compact_json 201
                            (VData (JNum 0)) ALLOW))
                 : Async JsVal))
      (mkExpressRequest VUndefined ∅) Fixture.nothing
      = (Responded res, Fixture.nothing) /\
    (201 = 0 \/ 100 <= 201 <= 999 ->
     res = {| status := VData (JNum (if 201 =? 0 then 200 else 201));
              sent := if truthy (VData (JNum 0)) then JNum 0 else JObj ∅ |}) /\
    (201 <> 0 -> ~ 100 <= 201 <= 999 ->
     status res = VData (JNum 500) /\
     exists message, sent res = JObj {[ "error" := JStr message ]}).
Proof.
  assert (Fixture.parse_known [JNum 0] (Fixture.compact_json (JNum 0))
          = inl (JNum 0)) as Hparse by (vm_compute; reflexivity).
  split; [reflexivity|]. split; [exact Hparse|].
  apply (json_body_reaches_the_client Fixture.compact_json
           (Fixture.parse_known [JNum 0]) (mkExpressRequest VUndefined ∅)
           Fixture.nothing 201 ALLOW (JNum 0) eq_refl Hparse).
Defined.

(** ** Start-up without clashes *)

Lemma labels_NoDup (entries : list (nat * string * Operation)) :
  NoDup (omap resolved entries) -> NoDup (labels entries).
Proof.
  intros Hnd. rewrite labels_of_resolved.
  apply NoDup_fmap_2_strong; [|done].
  intros [m1 p1] [m2 p2] _ _ Heq. cbn in Heq.
  destruct (route_label_inj m1 m2 p1 p2 Heq) as [-> ->]. reflexivity.
Qed.

Lemma start_up_without_repetition (pending : list (nat * string * Operation)) :
  forall (routes : list string) (app : list Server.Route),
    NoDup (routes ++ labels pending) ->
    Server.run (S (length pending)) (Server.STARTING pending routes app)
      = Server.LISTENING (app ++ omap route_of pending).
Proof.
  induction pending as [|[[i base] op] pending IH]; intros routes app Hnd.
  - cbn. by rewrite app_nil_r.
  - cbn [length]. rewrite run_S. cbn [Server.step].
    rewrite register_label.
    unfold labels in Hnd. cbn [omap list_omap] in Hnd.
    fold (omap label_of pending) in Hnd. fold (labels pending) in Hnd.
    cbn [omap list_omap]. fold (omap route_of pending).
    unfold label_of, resolved, route_of in *.
    destruct (method op) as [m|]; cbn [fmap option_fmap option_map fst snd default] in *.
    + apply NoDup_app in Hnd as (Hroutes & Hdisjoint & Hrest).
      apply NoDup_cons in Hrest as [Hfresh Hrest].
      rewrite bool_decide_eq_false_2.
      2:{ intros Hin. apply (Hdisjoint _ Hin). apply elem_of_cons. by left. }
      rewrite IH.
      * by rewrite <- app_assoc.
      * rewrite <- app_assoc. apply NoDup_app.
        split; [done|]. split; [exact Hdisjoint|].
        by apply NoDup_cons.
    + by apply IH.
Qed.

(** X18. When the operations that carry route metadata resolve to
    pairwise different (verb, full path) pairs, the start-up registers one
    route for each of them, in the order of the visit and skipping the
    members without metadata, and then listens. *)
Theorem start_up_without_clash_listens (controllers : list ControllerClass) :
  NoDup (omap resolved (Server.visit_order controllers)) ->
  Server.run (S (length (Server.visit_order controllers)))
    (Server.boot controllers)
    = Server.LISTENING (omap route_of (Server.visit_order controllers)).
Proof.
  intros Hnd. unfold Server.boot.
  rewrite start_up_without_repetition; [done|].
  cbn [app]. by apply labels_NoDup.
Qed.

Lemma start_up_without_clash_listens_witness :
  NoDup (omap resolved (Server.visit_order items_controllers)) /\
  Server.run (S (length (Server.visit_order items_controllers)))
    (Server.boot items_controllers)
    = Server.LISTENING (omap route_of (Server.visit_order items_controllers)).
Proof.
  assert (NoDup (omap resolved (Server.visit_order items_controllers)))
    as Hnd.
  { apply (bool_decide_unpack _). vm_compute. exact I. }
  split; [exact Hnd|].
  apply (start_up_without_clash_listens items_controllers Hnd).
Defined.

Lemma get_property_inr (v : JsVal) (k : string) (x : JsVal) :
  get_property v k = inr x -> exists m, x = VError m.
Proof.
  unfold get_property. intros H. repeat case_match; simplify_eq; eauto.
Qed.

(** X19. The only way for the route callback to end without writing a
    response is a handler that throws [null] or [undefined]: whatever else
    the handler returns or throws, a response is written. *)
Theorem callback_answers_unless_null_is_thrown (JSON_text : Json -> string)
    (JSON_parse : string -> Json + string)
    (handler : IRequest -> Async JsVal) (req : ExpressRequest) (w w' : World)
    (e : JsVal) :
  route_callback JSON_text JSON_parse handler req w = (Escaped e, w') ->
  handler (invocation_request JSON_text req) w = (Thrown VUndefined, w') \/
  handler (invocation_request JSON_text req) w = (Thrown (VData JNull), w').
Proof.
  unfold route_callback.
  destruct (handler (invocation_request JSON_text req) w)
    as [[result|thrown] w1].
  - assert (forall x, write_result JSON_text JSON_parse result = inr x ->
                      exists m, x = VError m) as Hinr.
    { intros x. unfold write_result, status_error. intros Hx.
      repeat case_match; simplify_eq;
        eauto using get_property_inr. }
    destruct (write_result JSON_text JSON_parse result) as [res|x] eqn:Hres;
      [discriminate|].
    destruct (Hinr x eq_refl) as [m ->]. discriminate.
  - destruct thrown as [|[| | | | |props]|m]; cbn; intros [= <- <-];
      try discriminate; auto.
Qed.

Lemma callback_answers_unless_null_is_thrown_witness :
  route_callback Fixture.compact_json (Fixture.parse_known [])
    (fun _ => throw (VData JNull)) (mkExpressRequest VUndefined ∅)
    Fixture.nothing
    = (Escaped (VError (cannot_read "null" "message")), Fixture.nothing) /\
  ((fun _ : IRequest => (throw (VData JNull) : Async JsVal))
     (invocation_request Fixture.compact_json (mkExpressRequest VUndefined ∅))
     Fixture.nothing = (Thrown VUndefined, Fixture.nothing) \/
   (fun _ : IRequest => (throw (VData JNull) : Async JsVal))
     (invocation_request Fixture.compact_json (mkExpressRequest VUndefined ∅))
     Fixture.nothing = (Thrown (VData JNull), Fixture.nothing)).
Proof.
  split; [reflexivity|].
  apply (callback_answers_unless_null_is_thrown Fixture.compact_json
           (Fixture.parse_known []) (fun _ => throw (VData JNull))
           (mkExpressRequest VUndefined ∅) Fixture.nothing Fixture.nothing
           (VError (cannot_read "null" "message"))).
  reflexivity.
Defined.

(** X20. [POST /items] followed by [GET /items/:id] with the id that was
    handed out: for a payload that the document client stores, without
    [PK] and [SK] of its own, the second answer is 200 with the text of the
    payload plus [id], [createdOn] and [lastModifiedOn]. *)
Theorem post_then_get_returns_the_item (JSON_text : Json -> string)
    (JSON_parse : string -> Json + string) (v4 now now' : string)
    (request : IRequest) (p : Obj) (w : World) :
  JSON_parse (ToString (request_body request)) = inl (JObj p) ->
  storable p ->
  p !! "PK" = None ->
  p !! "SK" = None ->
  exists w',
    ItemsCreateController_handler JSON_text JSON_parse v4 now now' request w
      = (Returned (mkResponse 201 allow_all
                     (Some (JSON_text (JObj {[ "id" := JStr v4 ]})))), w') /\
    ItemsGetController_handler JSON_text (mkRequest {[ "id" := v4 ]} VUndefined)
      w'
      = (Returned
           (mkResponse 200 allow_all
              (Some (JSON_text
                       (JObj (<["lastModifiedOn" := JStr now']>
                                (<["createdOn" := JStr now]>
                                   (<["id" := JStr v4]> p))))))), w').
Proof.
  intros Hparse [Hsafe _] Hpk Hsk. eexists.
  split.
  { apply (create_handler_run _ _ v4 now now' request p w Hparse).
    by apply safe_created. }
  rewrite get_handler_run.
  unfold pathParameters_id. cbn [pathParameters].
  rewrite lookup_singleton_eq. cbn [table]. rewrite lookup_insert_eq.
  assert (delete "PK" (delete "SK"
                         (created v4 now now' Fixture.ITEM Fixture.ITEM p))
          = <["lastModifiedOn" := JStr now']>
              (<["createdOn" := JStr now]> (<["id" := JStr v4]> p))) as ->;
    [|reflexivity].
  apply map_eq. intros f. unfold created.
  destruct (decide (f = "PK")) as [->|]; [by rewrite lookup_delete_eq; lookups|].
  rewrite lookup_delete_ne by done.
  destruct (decide (f = "SK")) as [->|]; [by rewrite lookup_delete_eq; lookups|].
  rewrite lookup_delete_ne by done.
  destruct (decide (f = "lastModifiedOn")) as [->|]; [by lookups|].
  rewrite !(lookup_insert_ne _ "lastModifiedOn") by done.
  by rewrite (lookup_insert_ne _ "SK"), (lookup_insert_ne _ "PK") by done.
Qed.

Lemma post_then_get_returns_the_item_witness :
  Fixture.parse_known [JObj Fixture.new_item]
    (ToString (request_body
                 (mkRequest ∅ (VStr (Fixture.compact_json
                                       (JObj Fixture.new_item))))))
    = inl (JObj Fixture.new_item) /\
  storable Fixture.new_item /\
  Fixture.new_item !! "PK" = None /\
  Fixture.new_item !! "SK" = None /\
  exists w',
    ItemsCreateController_handler Fixture.compact_json
      (Fixture.parse_known [JObj Fixture.new_item]) "6f1c" "t0" "t1"
      (mkRequest ∅ (VStr (Fixture.compact_json (JObj Fixture.new_item))))
      Fixture.nothing
      = (Returned (mkResponse 201 allow_all
                     (Some (Fixture.compact_json
                              (JObj {[ "id" := JStr "6f1c" ]})))), w') /\
    ItemsGetController_handler Fixture.compact_json
      (mkRequest {[ "id" := "6f1c" ]} VUndefined) w'
      = (Returned
           (mkResponse 200 allow_all
              (Some (Fixture.compact_json
                       (JObj (<["lastModifiedOn" := JStr "t1"]>
                                (<["createdOn" := JStr "t0"]>
                                   (<["id" := JStr "6f1c"]>
                                      Fixture.new_item))))))), w').
Proof.
  assert (Fixture.parse_known [JObj Fixture.new_item]
            (ToString (request_body
                         (mkRequest ∅ (VStr (Fixture.compact_json
                                               (JObj Fixture.new_item))))))
          = inl (JObj Fixture.new_item)) as Hparse
    by (vm_compute; reflexivity).
  assert (storable Fixture.new_item) as Hstorable
    by (split; vm_compute; reflexivity).
  split; [exact Hparse|]. split; [exact Hstorable|].
  split; [reflexivity|]. split; [reflexivity|].
  apply (post_then_get_returns_the_item Fixture.compact_json
           (Fixture.parse_known [JObj Fixture.new_item]) "6f1c" "t0" "t1"
           (mkRequest ∅ (VStr (Fixture.compact_json (JObj Fixture.new_item))))
           Fixture.new_item Fixture.nothing Hparse Hstorable); reflexivity.
Defined.
